(** * news_digest: a verification model of [news_digest.py]

    The program aggregates RSS/Atom feeds into a weekly digest.  This file
    embeds its functions ([strip_html], [parse_datetime], [summarize_naive],
    [summarize_with_g4f], [fetch_news], [print_news], [save_to_md] and the
    main block) and proves properties of them.

    Python strings are lists of Unicode code points, Python exceptions are an
    explicit [result], and the libraries the program calls (feedparser,
    BeautifulSoup, dateutil, hashlib, g4f, the clock) are the fields of one
    interface, [Externals], over which every function is parametrised.  A
    library call the program does not guard ([feedparser.parse], the
    [BeautifulSoup] constructor) may raise, and what it raises leaves
    [fetch_news]. *)

From Stdlib Require Import ZArith NArith Lia List Ascii String Bool Sorted.
From stdpp Require Import base list gmap sets.
Import ListNotations.
Open Scope Z_scope.

(** ** Python strings *)

(** A [str] is a sequence of code points. *)
Abbreviation str := (list N).

(** Source literals are written as Rocq strings (UTF-8 bytes) and decoded. *)
Fixpoint utf8_decode (bs : str) : str :=
  match bs with
  | [] => []
  | b0 :: r0 =>
      if (b0 <? 128)%N then b0 :: utf8_decode r0
      else
        match r0 with
        | [] => []
        | b1 :: r1 =>
            if (b0 <? 224)%N then ((b0 mod 32) * 64 + b1 mod 64)%N :: utf8_decode r1
            else
              match r1 with
              | [] => []
              | b2 :: r2 =>
                  if (b0 <? 240)%N
                  then ((b0 mod 16) * 4096 + (b1 mod 64) * 64 + b2 mod 64)%N :: utf8_decode r2
                  else
                    match r2 with
                    | [] => []
                    | b3 :: r3 =>
                        ((b0 mod 8) * 262144 + (b1 mod 64) * 4096
                         + (b2 mod 64) * 64 + b3 mod 64)%N :: utf8_decode r3
                    end
              end
        end
  end.

Definition py (s : string) : str :=
  utf8_decode (List.map N_of_ascii (list_ascii_of_string s)).

(** Truthiness of a string: [not s] holds exactly for the empty string. *)
Definition is_empty (s : str) : bool :=
  match s with [] => true | _ => false end.

(** [a or b] on strings. *)
Definition py_or (a b : str) : str := if is_empty a then b else a.

(** [str.isspace] for one code point; the class [\s] of [re] on [str]
    patterns is the same set. *)
Definition isspace (c : N) : bool :=
  ((9 <=? c) && (c <=? 13) || (28 <=? c) && (c <=? 32)
   || (c =? 133) || (c =? 160) || (c =? 5760)
   || (8192 <=? c) && (c <=? 8202)
   || (c =? 8232) || (c =? 8233) || (c =? 8239) || (c =? 8287) || (c =? 12288))%N.

Fixpoint lstrip (s : str) : str :=
  match s with
  | [] => []
  | c :: r => if isspace c then lstrip r else s
  end.

Definition rstrip (s : str) : str := rev (lstrip (rev s)).

Definition strip (s : str) : str := rstrip (lstrip s).

(** [sep.join(parts)] *)
Fixpoint join (sep : str) (parts : list str) : str :=
  match parts with
  | [] => []
  | [p] => p
  | p :: rest => p ++ sep ++ join sep rest
  end.

(** [l[:k]] for a Python integer [k]: a negative [k] counts from the end. *)
Definition slice_to {A : Type} (l : list A) (k : Z) : list A :=
  if 0 <=? k then take (Z.to_nat k) l
  else take (Z.to_nat (Z.of_nat (length l) + k)) l.

(** Comparison of strings, by code point ([<] of [str]). *)
Fixpoint str_ltb (a b : str) : bool :=
  match a, b with
  | _, [] => false
  | [], _ :: _ => true
  | x :: a', y :: b' =>
      if (x <? y)%N then true
      else if (y <? x)%N then false
      else str_ltb a' b'
  end.

(** [re.sub(r"\s+", " ", s)]: every maximal run of whitespace becomes one
    space.  [in_run] tells that the previous character was whitespace. *)
Fixpoint sub_ws (in_run : bool) (s : str) : str :=
  match s with
  | [] => []
  | c :: r =>
      if isspace c
      then (if in_run then sub_ws true r else 32%N :: sub_ws true r)
      else c :: sub_ws false r
  end.

Definition re_sub_ws (s : str) : str := sub_ws false s.

(** [re.split(r"(?<=[.!?])\s+", s)].  A match is a maximal run of whitespace
    whose preceding character is one of [.], [!], [?]; the pieces between the
    matches are returned, the last one also when it is empty.
    [after_end]: the previous character ends a sentence; [skipping]: the scan
    is inside a match; [cur]: the piece read so far. *)
Definition is_terminal (c : N) : bool :=
  ((c =? 46) || (c =? 33) || (c =? 63))%N.

Fixpoint split_go (after_end skipping : bool) (cur s : str) : list str :=
  match s with
  | [] => [cur]
  | c :: r =>
      if isspace c then
        if skipping then split_go false true cur r
        else if after_end then cur :: split_go false true [] r
        else split_go false false (cur ++ [c]) r
      else split_go (is_terminal c) false (cur ++ [c]) r
  end.

Definition re_split_sentences (s : str) : list str :=
  split_go false false [] s.

(** ** Exceptions *)

Inductive exn : Type :=
| ImportError
| ValueError
| OverflowError
| ServiceError
| ParserRejectedMarkup
| UnicodeEncodeError.

Inductive result (A : Type) : Type :=
| Ok (a : A)
| Raise (e : exn).
Arguments Ok {A} a.
Arguments Raise {A} e.

(** [try: body  except Exception: handler] *)
Definition try_except {A : Type} (body : result A) (handler : exn -> result A) : result A :=
  match body with
  | Ok a => Ok a
  | Raise e => handler e
  end.

Definition rbind {A B : Type} (m : result A) (k : A -> result B) : result B :=
  match m with
  | Ok a => k a
  | Raise e => Raise e
  end.

(** ** [datetime]

    A [datetime] is its wall-clock reading, in microseconds since
    0001-01-01T00:00:00, and its [tzinfo]: [None] for a naive value, the UTC
    offset in microseconds for an aware one.  Python represents the range
    0001-01-01T00:00:00 .. 9999-12-31T23:59:59.999999 and raises
    [OverflowError] outside it. *)

Record datetime : Type := mk_datetime { wall : Z; tzinfo : option Z }.

Definition US_PER_DAY : Z := 86400000000.
Definition MAX_ORDINAL : Z := 3652059.
Definition MAX_WALL : Z := MAX_ORDINAL * US_PER_DAY - 1.
Definition MAX_DELTA_DAYS : Z := 999999999.

Definition in_range (w : Z) : bool := (0 <=? w) && (w <=? MAX_WALL).

(** [timezone.utc] has offset 0. *)
Definition utc : option Z := Some 0.

(** [datetime.now(timezone.utc)] for a clock that reads [ticks]. *)
Definition now_utc (ticks : Z) : datetime := mk_datetime ticks utc.

(** [dt - timedelta(days=days)] *)
Definition sub_days (dt : datetime) (days : Z) : result datetime :=
  if (Z.abs days <=? MAX_DELTA_DAYS) && in_range (wall dt - days * US_PER_DAY)
  then Ok (mk_datetime (wall dt - days * US_PER_DAY) (tzinfo dt))
  else Raise OverflowError.

(** [dt.replace(tzinfo=timezone.utc)] *)
Definition replace_tzinfo_utc (dt : datetime) : datetime :=
  mk_datetime (wall dt) utc.

(** [dt.astimezone(timezone.utc)] for an aware [dt] of offset [off]. *)
Definition astimezone_utc (dt : datetime) (off : Z) : result datetime :=
  if in_range (wall dt - off)
  then Ok (mk_datetime (wall dt - off) utc)
  else Raise OverflowError.

(** The instant an aware value denotes. *)
Definition instant (dt : datetime) : Z :=
  wall dt - match tzinfo dt with Some off => off | None => 0 end.

(** [a < b] for two aware values. *)
Definition dt_ltb (a b : datetime) : bool := instant a <? instant b.

(** Calendar arithmetic, as in [datetime.py]. *)
Definition is_leap (y : Z) : bool :=
  (y mod 4 =? 0) && (negb (y mod 100 =? 0) || (y mod 400 =? 0)).

Definition DAYS_IN_MONTH : list Z := [-1; 31; 28; 31; 30; 31; 30; 31; 31; 30; 31; 30; 31].
Definition DAYS_BEFORE_MONTH : list Z :=
  [-1; 0; 31; 59; 90; 120; 151; 181; 212; 243; 273; 304; 334].

Definition table (t : list Z) (m : Z) : Z := nth (Z.to_nat m) t 0.

Definition days_before_year (year : Z) : Z :=
  let y := year - 1 in y * 365 + y / 4 - y / 100 + y / 400.

Definition days_before_month (year month : Z) : Z :=
  table DAYS_BEFORE_MONTH month + (if (2 <? month) && is_leap year then 1 else 0).

Definition ymd2ord (year month day : Z) : Z :=
  days_before_year year + days_before_month year month + day.

Definition ord2ymd (ordinal : Z) : Z * Z * Z :=
  let n := ordinal - 1 in
  let n400 := n / 146097 in
  let n := n mod 146097 in
  let year := n400 * 400 + 1 in
  let n100 := n / 36524 in
  let n := n mod 36524 in
  let n4 := n / 1461 in
  let n := n mod 1461 in
  let n1 := n / 365 in
  let n := n mod 365 in
  let year := year + n100 * 100 + n4 * 4 + n1 in
  if (n1 =? 4) || (n100 =? 4) then (year - 1, 12, 31)
  else
    let leapyear := (n1 =? 3) && (negb (n4 =? 24) || (n100 =? 3)) in
    let month := Z.shiftr (n + 50) 5 in
    let preceding :=
      table DAYS_BEFORE_MONTH month + (if (2 <? month) && leapyear then 1 else 0) in
    if n <? preceding then
      let month := month - 1 in
      let preceding :=
        preceding - (table DAYS_IN_MONTH month
                     + (if (month =? 2) && leapyear then 1 else 0)) in
      (year, month, n - preceding + 1)
    else (year, month, n - preceding + 1).

(** A wall-clock reading from its fields. *)
Definition wall_of (year month day hour minute second microsecond : Z) : Z :=
  (ymd2ord year month day - 1) * US_PER_DAY
  + ((hour * 60 + minute) * 60 + second) * 1000000 + microsecond.

(** Decimal fields of fixed width. *)
Definition digit (d : Z) : N := Z.to_N (48 + d mod 10).
Definition pad2 (n : Z) : str := [digit (n / 10); digit n].
Definition pad4 (n : Z) : str := [digit (n / 1000); digit (n / 100); digit (n / 10); digit n].
Definition pad6 (n : Z) : str :=
  [digit (n / 100000); digit (n / 10000); digit (n / 1000);
   digit (n / 100); digit (n / 10); digit n].

(** [hh:mm:ss[.ffffff]] of a count of microseconds below one day. *)
Definition format_time (us : Z) : str :=
  let s := us / 1000000 in
  pad2 (s / 3600) ++ py ":" ++ pad2 (s / 60 mod 60) ++ py ":" ++ pad2 (s mod 60)
  ++ (if us mod 1000000 =? 0 then [] else py "." ++ pad6 (us mod 1000000)).

(** The UTC offset suffix: [+hh:mm], with seconds and microseconds only when
    they are not zero; nothing for a naive value. *)
Definition format_offset (tz : option Z) : str :=
  match tz with
  | None => []
  | Some off =>
      let a := Z.abs off in
      let s := a / 1000000 in
      (if off <? 0 then py "-" else py "+")
      ++ pad2 (s / 3600) ++ py ":" ++ pad2 (s / 60 mod 60)
      ++ (if (s mod 60 =? 0) && (a mod 1000000 =? 0) then []
          else py ":" ++ pad2 (s mod 60)
               ++ (if a mod 1000000 =? 0 then [] else py "." ++ pad6 (a mod 1000000)))
  end.

(** [dt.isoformat()] *)
Definition isoformat (dt : datetime) : str :=
  let '(y, m, d) := ord2ymd (wall dt / US_PER_DAY + 1) in
  pad4 y ++ py "-" ++ pad2 m ++ py "-" ++ pad2 d ++ py "T"
  ++ format_time (wall dt mod US_PER_DAY) ++ format_offset (tzinfo dt).

(** ** Feed entries and digest items *)

(** An entry of a parsed feed: a dictionary in which each of the keys the
    program reads may be missing. *)
Record RawEntry : Type := mk_entry {
  entry_title : option str;
  entry_summary : option str;
  entry_description : option str;
  entry_published : option str;
  entry_updated : option str;
  entry_link : option str
}.

(** The dictionary [fetch_news] builds for an entry. *)
Record DigestItem : Type := mk_item {
  title : str;
  summary : str;
  date : str;
  source : str;
  link : str;
  category : str
}.

(** [FEEDS]: category, then its sources as (name, url), in the order the
    dictionary lists them. *)
Definition FEEDS : list (str * list (str * str)) :=
  [ (py "Маркетинг",
      [ (py "Marketing Dive", py "https://www.marketingdive.com/feeds/news/");
        (py "HubSpot Blog", py "https://blog.hubspot.com/marketing/rss.xml") ]);
    (py "Технологии",
      [ (py "TechCrunch", py "http://feeds.feedburner.com/Techcrunch/");
        (py "The Verge", py "https://www.theverge.com/rss/index.xml") ]);
    (py "Реклама",
      [ (py "Adweek", py "https://www.adweek.com/feed/");
        (py "Campaign US", py "https://www.campaignlive.com/us/rss") ]);
    (py "Искусственный интеллект",
      [ (py "VentureBeat – AI", py "https://venturebeat.com/category/ai/feed/");
        (py "The Decoder", py "https://the-decoder.com/feed/") ]);
    (py "Социальные сети",
      [ (py "Social Media Today", py "https://www.socialmediatoday.com/.rss/full/");
        (py "Mashable – Social Media", py "https://mashable.com/feeds/social-media/") ]) ].

(** ** The libraries the program calls *)

Class Externals : Type := {
  (** the state of everything outside the process *)
  World : Type;
  (** the clock, read as microseconds since 0001-01-01T00:00:00 UTC *)
  clock : World -> Z;
  (** [feedparser.parse(url).entries], or what the call raises *)
  feedparser_parse : str -> World -> result (list RawEntry) * World;
  (** the text nodes, in document order, of [BeautifulSoup(html, "html.parser")],
      or what the constructor raises *)
  soup_strings : str -> result (list str);
  (** [dateutil.parser.parse] *)
  dtparser_parse : str -> result datetime;
  (** [hashlib.sha256(s.encode()).hexdigest()] *)
  sha256_hexdigest : str -> str;
  (** [import g4f] *)
  import_g4f : World -> result unit * World;
  (** [str(g4f.ChatCompletion.create(model=g4f.models.gpt_4, messages=..., stream=False))]
      for the messages given as (role, content) *)
  g4f_create : list (str * str) -> World -> result str * World
}.

(** ** [summarize_naive] *)

Definition summarize_naive (text : str) (max_sentences max_chars : Z) : str :=
  if is_empty text then []
  else
    let sentences := re_split_sentences text in
    let summary := join (py " ") (slice_to sentences max_sentences) in
    if max_chars <? Z.of_nat (length summary)
    then rstrip (slice_to summary (max_chars - 1)) ++ py "..."
    else summary.

(** ** Sorting

    [l.sort(key=key, reverse=True)]: descending by [key], elements of equal
    key in their original order. *)
Section Sort.
Context {A : Type} (key : A -> str).

Fixpoint insert_reverse (x : A) (l : list A) : list A :=
  match l with
  | [] => [x]
  | h :: t => if str_ltb (key x) (key h) then h :: insert_reverse x t else x :: l
  end.

Fixpoint sort_reverse (l : list A) : list A :=
  match l with
  | [] => []
  | x :: r => insert_reverse x (sort_reverse r)
  end.

End Sort.

Section Program.
Context {E : Externals}.

(** Computations that read or change the world and may raise. *)
Definition ME (A : Type) : Type := World -> result A * World.

Definition ret {A : Type} (a : A) : ME A := fun w => (Ok a, w).

Definition bind {A B : Type} (m : ME A) (k : A -> ME B) : ME B :=
  fun w =>
    match m w with
    | (Ok a, w') => k a w'
    | (Raise e, w') => (Raise e, w')
    end.

Definition lift {A : Type} (r : result A) : ME A := fun w => (r, w).

Definition try_except_m {A : Type} (body : ME A) (handler : exn -> ME A) : ME A :=
  fun w =>
    match body w with
    | (Ok a, w') => (Ok a, w')
    | (Raise e, w') => handler e w'
    end.

Local Notation "'let*' x ':=' m 'in' k" := (bind m (fun x => k))
  (at level 10, x name, m at level 100, k at level 200).

(** [for x in xs: body], with the variables the body updates as [s]. *)
Fixpoint for_each {A S : Type} (xs : list A) (body : A -> S -> ME S) (s : S) : ME S :=
  match xs with
  | [] => ret s
  | x :: rest => let* s' := body x s in for_each rest body s'
  end.

(** [soup.get_text(separator=" ", strip=True)] for the text nodes of
    [soup]: each stripped, the empty ones left out, joined by the separator. *)
Definition get_text (soup : list str) : str :=
  join (py " ") (List.filter (fun s => negb (is_empty s)) (List.map strip soup)).

(** [strip_html]; the argument is [None] or a string. *)
Definition strip_html (html : option str) : result str :=
  match html with
  | None => Ok []
  | Some h =>
      if is_empty h then Ok []
      else rbind (soup_strings h) (fun soup => Ok (strip (re_sub_ws (get_text soup))))
  end.

Definition parse_datetime (dt_str : str) : result (option datetime) :=
  if is_empty dt_str then Ok None
  else
    try_except
      (rbind (dtparser_parse dt_str) (fun dt =>
       rbind (match tzinfo dt with
              | None => Ok (replace_tzinfo_utc dt)
              | Some off => astimezone_utc dt off
              end) (fun dt => Ok (Some dt))))
      (fun _ => Ok None).

Definition g4f_messages (text : str) : list (str * str) :=
  [ (py "system", py "Ты — ИИ-журналист. Пиши кратко, нейтрально, без рекламы.");
    (py "user", py "Перескажи нейтрально и коротко: " ++ text) ].

Definition summarize_with_g4f (text : str) : ME str :=
  fun w =>
    match import_g4f w with
    | (Raise _, w1) => ret (summarize_naive text 2 300) w1
    | (Ok _, w1) =>
        try_except_m
          (let* response := g4f_create (g4f_messages text) in ret (strip response))
          (fun _ => ret (summarize_naive text 2 300)) w1
    end.

(** [dt and dt < cutoff] *)
Definition too_old (dt : option datetime) (cutoff : datetime) : bool :=
  match dt with
  | Some d => dt_ltb d cutoff
  | None => false
  end.

(** [dt.isoformat() if dt else "unknown"] *)
Definition date_field (dt : option datetime) : str :=
  match dt with
  | Some d => isoformat d
  | None => py "unknown"
  end.

(** The body of the innermost loop of [fetch_news], lines 101-123;
    [entry.get(k, "")] is [default [] (entry_k entry)]. *)
Definition process_entry (cutoff : datetime) (use_g4f : bool) (category source_name : str)
    (entry : RawEntry) (all_news : list DigestItem) : ME (list DigestItem) :=
  let* title := lift (strip_html (Some (default [] (entry_title entry)))) in
  if is_empty title then ret all_news
  else
    let* desc := lift (strip_html (Some (py_or (default [] (entry_summary entry))
                                               (default [] (entry_description entry))))) in
    let date_str := py_or (default [] (entry_published entry))
                          (default [] (entry_updated entry)) in
    let* dt := lift (parse_datetime date_str) in
    if too_old dt cutoff then ret all_news
    else
      let* summary := (if use_g4f then summarize_with_g4f desc
                       else ret (summarize_naive desc 2 300)) in
      ret (all_news ++ [ mk_item title summary (date_field dt) source_name
                                 (default [] (entry_link entry)) category ]).

(** The body of the loop over the feeds of a category, lines 99-123. *)
Definition process_feed (cutoff : datetime) (use_g4f : bool) (category : str)
    (feed : str * str) (all_news : list DigestItem) : ME (list DigestItem) :=
  let* entries := feedparser_parse (snd feed) in
  for_each entries (process_entry cutoff use_g4f category (fst feed)) all_news.

(** The three nested loops: [all_news] after them. *)
Definition collect (feeds : list (str * list (str * str))) (cutoff : datetime)
    (use_g4f : bool) : ME (list DigestItem) :=
  for_each feeds
    (fun cf all_news => for_each (snd cf) (process_feed cutoff use_g4f (fst cf)) all_news)
    [].

(** The key of the deduplication loop. *)
Definition fingerprint (n : DigestItem) : str :=
  sha256_hexdigest (title n ++ source n).

(** The deduplication loop, from given [seen] and [unique]. *)
Fixpoint dedup (all_news : list DigestItem) (seen : gset str) (unique : list DigestItem)
    : list DigestItem :=
  match all_news with
  | [] => unique
  | n :: rest =>
      if decide (fingerprint n ∈ seen) then dedup rest seen unique
      else dedup rest ({[fingerprint n]} ∪ seen) (unique ++ [n])
  end.

(** Lines 125-134: deduplicate, sort, truncate. *)
Definition dedup_sort_limit (all_news : list DigestItem) (limit : Z) : list DigestItem :=
  let unique := dedup all_news ∅ [] in
  slice_to (sort_reverse date unique) limit.

(** [cutoff = datetime.now(timezone.utc) - timedelta(days=days)] *)
Definition cutoff_of (w : World) (days : Z) : result datetime :=
  sub_days (now_utc (clock w)) days.

Definition fetch_news (days limit : Z) (use_g4f : bool) : ME (list DigestItem) :=
  let* cutoff := (fun w => (cutoff_of w days, w)) in
  let* all_news := collect FEEDS cutoff use_g4f in
  ret (dedup_sort_limit all_news limit).

End Program.

(** ** A concrete world, for the examples

    One feed answers with four entries; the other nine are empty.  The HTML
    parser knows the documents with markup that occur, and takes every other
    document as plain text, which is its own single text node; the date
    parser knows the date strings that occur; the digest of a string is the
    string itself, which like SHA-256 tells the strings that occur apart; the
    g4f library imports and its service refuses every request.  The world is
    the number of calls made so far. *)

Definition HOUR : Z := 3600000000.

Definition example_dates : list (str * datetime) :=
  [ (py "2024-01-01T00:00:00", mk_datetime (wall_of 2024 1 1 0 0 0 0) None);
    (py "Tue, 02 Jan 2024 10:30:00 +0200",
       mk_datetime (wall_of 2024 1 2 10 30 0 0) (Some (2 * HOUR)));
    (py "2023-12-01T00:00:00+02:00",
       mk_datetime (wall_of 2023 12 1 0 0 0 0) (Some (2 * HOUR)));
    (py "9999-12-31T23:59:59-05:00",
       mk_datetime (wall_of 9999 12 31 23 59 59 0) (Some (-5 * HOUR)));
    (py "Mon, 01 Jan 2024 00:00:00 EST",
       mk_datetime (wall_of 2024 1 1 0 0 0 0) None) ].

(** What [BeautifulSoup(html, "html.parser")] makes of the documents with
    markup: a marked section the parser cannot read, text that entities
    spell, and a paragraph with a tag inside. *)
Definition example_documents : list (str * result (list str)) :=
  [ (py "<![9", Raise ParserRejectedMarkup);
    (py "&lt;b&gt;not a tag&lt;/b&gt;", Ok [py "<b>not a tag</b>"]);
    (py "<p>Hello,   <b>world</b>!</p>", Ok [py "Hello,   "; py "world"; py "!"]) ].

Fixpoint assoc {V : Type} (k : str) (l : list (str * V)) : option V :=
  match l with
  | [] => None
  | (k', v) :: r => if decide (k = k') then Some v else assoc k r
  end.

Definition dated_entry : RawEntry :=
  mk_entry (Some (py "Dated story"))
           (Some (py "Sentence one. Sentence two. Sentence three."))
           None (Some (py "2024-01-01T00:00:00")) None
           (Some (py "https://example.org/dated")).

Definition undated_entry : RawEntry :=
  mk_entry (Some (py "Undated story")) None (Some (py "No date at all."))
           None None (Some (py "https://example.org/undated")).

Definition stale_entry : RawEntry :=
  mk_entry (Some (py "Stale story")) (Some (py "Old."))
           None (Some (py "2023-12-01T00:00:00+02:00")) None None.

Definition copy_entry : RawEntry :=
  mk_entry (Some (py "Dated story")) (Some (py "A later copy."))
           None None (Some (py "Tue, 02 Jan 2024 10:30:00 +0200")) None.

Definition example_entries : list RawEntry :=
  [ dated_entry; undated_entry; stale_entry; copy_entry ].

(** The clock reads 2024-01-05T12:00:00, so seven days back is: *)
Definition example_cutoff : datetime :=
  mk_datetime (wall_of 2023 12 29 12 0 0 0) utc.

Definition example_world : Externals := {|
  World := nat;
  clock := fun _ => wall_of 2024 1 5 12 0 0 0;
  feedparser_parse := fun url w =>
    (Ok (if decide (url = py "https://www.marketingdive.com/feeds/news/")
         then example_entries else []), S w);
  soup_strings := fun html =>
    match assoc html example_documents with
    | Some r => r
    | None => Ok [html]
    end;
  dtparser_parse := fun s =>
    match assoc s example_dates with
    | Some dt => Ok dt
    | None => Raise ValueError
    end;
  sha256_hexdigest := fun s => s;
  import_g4f := fun w => (Ok tt, S w);
  g4f_create := fun _ w => (Raise ServiceError, S w)
|}.

(** The example world, but the first feed answers with one entry, from
    long ago, whose description the HTML parser rejects. *)
Definition rejected_entry : RawEntry :=
  mk_entry (Some (py "Old story")) (Some (py "<![9"))
           None (Some (py "2023-12-01T00:00:00+02:00")) None None.

Definition rejecting_world : Externals := {|
  World := nat;
  clock := fun _ => wall_of 2024 1 5 12 0 0 0;
  feedparser_parse := fun url w =>
    (Ok (if decide (url = py "https://www.marketingdive.com/feeds/news/")
         then [rejected_entry; dated_entry] else []), S w);
  soup_strings := fun html =>
    match assoc html example_documents with
    | Some r => r
    | None => Ok [html]
    end;
  dtparser_parse := fun s =>
    match assoc s example_dates with
    | Some dt => Ok dt
    | None => Raise ValueError
    end;
  sha256_hexdigest := fun s => s;
  import_g4f := fun w => (Ok tt, S w);
  g4f_create := fun _ w => (Raise ServiceError, S w)
|}.

(** The example world, but the second feed cannot be read. *)
Definition unreadable_world : Externals := {|
  World := nat;
  clock := fun _ => wall_of 2024 1 5 12 0 0 0;
  feedparser_parse := fun url w =>
    (if decide (url = py "https://blog.hubspot.com/marketing/rss.xml")
     then Raise UnicodeEncodeError
     else Ok (if decide (url = py "https://www.marketingdive.com/feeds/news/")
              then example_entries else []), S w);
  soup_strings := fun html =>
    match assoc html example_documents with
    | Some r => r
    | None => Ok [html]
    end;
  dtparser_parse := fun s =>
    match assoc s example_dates with
    | Some dt => Ok dt
    | None => Raise ValueError
    end;
  sha256_hexdigest := fun s => s;
  import_g4f := fun w => (Ok tt, S w);
  g4f_create := fun _ w => (Raise ServiceError, S w)
|}.

(** ** Vocabulary of the statements *)


(** No two adjacent characters are both whitespace. *)
Fixpoint single_spaced (s : str) : bool :=
  match s with
  | c1 :: (c2 :: _) as r => negb (isspace c1 && isspace c2) && single_spaced r
  | _ => true
  end.

(** A call of the g4f summarizer on [text] in world [w] fails: the import
    raises, or the import succeeds and the request raises. *)
Definition service_fails {E : Externals} (w : World) (text : str) : Prop :=
  (exists e w1, import_g4f w = (Raise e, w1))
  \/ (exists u w1 e w2,
        import_g4f w = (Ok u, w1)
        /\ g4f_create (g4f_messages text) w1 = (Raise e, w2)).

(** [a] is not below [b] in the order of their keys. *)
Definition key_ge {A : Type} (key : A -> str) (a b : A) : Prop :=
  str_ltb (key a) (key b) = false.

(** The item has this title and this source. *)
Definition same_pair (t s : str) (n : DigestItem) : bool :=
  bool_decide (title n = t) && bool_decide (source n = s).

(** The text made of the pieces and of the separators between them. *)
Fixpoint weave (pieces seps : list str) : str :=
  match pieces, seps with
  | p :: ps, sp :: sps => p ++ sp ++ weave ps sps
  | p :: _, [] => p
  | [], _ => []
  end.

(** [cur] put in front of the first piece. *)
Definition prepend (cur : str) (pieces : list str) : list str :=
  match pieces with
  | p :: ps => (cur ++ p) :: ps
  | [] => []
  end.

(** The string ends with [.], [!] or [?]. *)
Definition ends_sentence (p : str) : bool :=
  match last p with
  | Some c => is_terminal c
  | None => false
  end.

(** Somewhere in the string a [.], [!] or [?] is followed by whitespace. *)
Fixpoint has_break (s : str) : bool :=
  match s with
  | c1 :: (c2 :: _) as r => (is_terminal c1 && isspace c2) || has_break r
  | _ => false
  end.

(** Cutting [s] before index [k] separates two characters of one word. *)
Definition mid_word_cut (s : str) (k : nat) : bool :=
  match s !! (k - 1)%nat, s !! k with
  | Some a, Some b => negb (isspace a) && negb (isspace b)
  | _, _ => false
  end.

(** Every element but the last satisfies [P]. *)
Fixpoint all_but_last (P : str -> bool) (l : list str) : bool :=
  match l with
  | p :: (_ :: _) as r => P p && all_but_last P r
  | _ => true
  end.

(** [n] is what the loop body builds, with the naive summary, from an entry
    that a read of a feed of [feeds] returned: its category and source are
    those of the feed, its title, summary, date and link those of the
    entry. *)
Definition naive_item_of_feed {E : Externals} (feeds : list (str * list (str * str)))
    (n : DigestItem) : Prop :=
  exists fs url w0 entries w1 entry desc,
    (category n, fs) ∈ feeds
    /\ (source n, url) ∈ fs
    /\ feedparser_parse url w0 = (Ok entries, w1)
    /\ entry ∈ entries
    /\ strip_html (Some (default [] (entry_title entry))) = Ok (title n)
    /\ strip_html (Some (py_or (default [] (entry_summary entry))
                               (default [] (entry_description entry)))) = Ok desc
    /\ summary n = summarize_naive desc 2 300
    /\ (exists dt,
          parse_datetime (py_or (default [] (entry_published entry))
                                (default [] (entry_updated entry))) = Ok dt
          /\ date n = date_field dt)
    /\ link n = default [] (entry_link entry).

(** ** Vocabulary of the further properties *)

(** An item as the loop body builds it from an entry that a read of a feed
    of [feeds] returned: where each of its fields comes from. *)
Definition built_from {E : Externals} (feeds : list (str * list (str * str)))
    (cutoff : datetime) (use_g4f : bool) (n : DigestItem) : Prop :=
  exists fs url w0 entries w1 entry desc dt,
    (category n, fs) ∈ feeds
    /\ (source n, url) ∈ fs
    /\ feedparser_parse url w0 = (Ok entries, w1)
    /\ entry ∈ entries
    /\ strip_html (Some (default [] (entry_title entry))) = Ok (title n)
    /\ is_empty (title n) = false
    /\ strip_html (Some (py_or (default [] (entry_summary entry))
                               (default [] (entry_description entry)))) = Ok desc
    /\ parse_datetime (py_or (default [] (entry_published entry))
                             (default [] (entry_updated entry))) = Ok dt
    /\ too_old dt cutoff = false
    /\ date n = date_field dt
    /\ link n = default [] (entry_link entry)
    /\ (use_g4f = false -> summary n = summarize_naive desc 2 300).

(** [days] days before the clock's reading is a date [timedelta] and
    [datetime] can express. *)
Definition window_ok {E : Externals} (w : World) (days : Z) : Prop :=
  Z.abs days <= MAX_DELTA_DAYS /\ 0 <= clock w - days * US_PER_DAY <= MAX_WALL.

(** Three-way comparison of strings, by code point. *)
Fixpoint str_cmp (a b : str) : comparison :=
  match a, b with
  | [], [] => Eq
  | [], _ :: _ => Lt
  | _ :: _, [] => Gt
  | x :: a', y :: b' =>
      match (x ?= y)%N with
      | Eq => str_cmp a' b'
      | c => c
      end
  end.

(** Lexicographic comparison: [c], and [rest] when [c] is a tie. *)
Definition lex (c rest : comparison) : comparison :=
  match c with
  | Eq => rest
  | Lt => Lt
  | Gt => Gt
  end.

(** The last [k] decimal digits of [n]. *)
Fixpoint digits (k : nat) (n : Z) : str :=
  match k with
  | O => []
  | S k' => digits k' (n / 10) ++ [digit n]
  end.

(** The date of an ordinal as one number, [yyyymmdd]. *)
Definition date_key (ordinal : Z) : Z :=
  let '(y, m, d) := ord2ymd ordinal in (y * 100 + m) * 100 + d.

(** The fields of the date of an ordinal of the first 400 years are in
    range. *)
Definition fields_ok (ordinal : Z) : bool :=
  let '(y, m, d) := ord2ymd ordinal in
  (1 <=? y) && (y <=? 400) && (1 <=? m) && (m <=? 12) && (1 <=? d) && (d <=? 31).

(** The [fuel] days from ordinal [i] on have fields in range and keys that
    grow from [prev]. *)
Fixpoint cycle_ok (fuel : nat) (i prev : Z) : bool :=
  match fuel with
  | O => true
  | S fuel' =>
      let '(y, m, d) := ord2ymd i in
      let k := (y * 100 + m) * 100 + d in
      (1 <=? y) && (y <=? 400) && (1 <=? m) && (m <=? 12) && (1 <=? d) && (d <=? 31)
      && (prev <? k) && cycle_ok fuel' (i + 1) k
  end.

(** An aware value in UTC that [datetime] can represent. *)
Definition valid_utc (d : datetime) : Prop :=
  tzinfo d = utc /\ in_range (wall d) = true.

(** The [date] field of [n] renders [o]: the ISO form of a UTC date
    [datetime] can represent, or ["unknown"] when there is none. *)
Definition stamped (n : DigestItem) (o : option datetime) : Prop :=
  date n = date_field o
  /\ match o with Some d => valid_utc d | None => True end.

(** Undated values first, then dated ones from the newest to the oldest. *)
Definition newest_first (ds : list (option datetime)) : Prop :=
  forall l1 a l2 b l3, ds = l1 ++ a :: l2 ++ b :: l3 ->
    match a, b with
    | Some da, Some db => instant db <= instant da
    | Some _, None => False
    | None, _ => True
    end.

(** ** The console and the digest file

    [print_news], [save_to_md] and the main block of the script.  What a run
    has done to its surroundings is recorded, in order, as a list of events:
    the [print] calls that returned, each with its argument, and the files
    written. *)

Inductive Event : Type :=
| Print (s : str)
| WriteFile (path content : str).

(** What the three ask of the machine they run on. *)
Class Host {E : Externals} : Type := {
  (** [print(s)], on the standard output that colorama wraps; it may raise,
      as when the terminal cannot encode [s] *)
  stdout_print : str -> World -> result unit * World;
  (** [datetime.now().strftime('%d.%m.%Y %H:%M')] *)
  local_stamp : World -> str;
  (** [os.path.join(os.getcwd(), "digest.md")] *)
  digest_path : World -> result str;
  (** [with open(path, "w", encoding="utf-8") as f: f.write(text)] *)
  write_text : str -> str -> World -> result unit * World
}.

Definition NL : str := [10%N].

(** colorama's [Fore] codes: [ESC], ["["], the colour number, ["m"]. *)
Definition CSI : str := [27%N; 91%N].
Definition Fore_RED : str := CSI ++ py "31m".
Definition Fore_GREEN : str := CSI ++ py "32m".
Definition Fore_YELLOW : str := CSI ++ py "33m".
Definition Fore_BLUE : str := CSI ++ py "34m".
Definition Fore_MAGENTA : str := CSI ++ py "35m".
Definition Fore_CYAN : str := CSI ++ py "36m".
Definition Fore_WHITE : str := CSI ++ py "37m".

(** [s * n] *)
Definition str_mul (s : str) (n : Z) : str :=
  concat (replicate (Z.to_nat n) s).

(** [s.center(width, fill)] *)
Definition center (s : str) (width : Z) (fill : N) : str :=
  let marg := width - Z.of_nat (length s) in
  if marg <=? 0 then s
  else
    let left := marg / 2 + Z.land (Z.land marg width) 1 in
    replicate (Z.to_nat left) fill ++ s ++ replicate (Z.to_nat (marg - left)) fill.

(** [str(n)] for an integer: its decimal digits, without leading zeros. *)
Fixpoint decimal (fuel : nat) (n : Z) (acc : str) : str :=
  match fuel with
  | O => acc
  | S fuel' =>
      if n <? 10 then digit n :: acc
      else decimal fuel' (n / 10) (digit n :: acc)
  end.

Definition str_of_int (n : Z) : str :=
  if n <? 0 then 45%N :: decimal (S (Z.to_nat (Z.log2 (- n)))) (- n) []
  else decimal (S (Z.to_nat (Z.log2 n))) n [].

(** The seven [print] calls of the loop body of [print_news], for the item
    [n] numbered [i]. *)
Definition item_lines (i : Z) (n : DigestItem) : list str :=
  [ Fore_YELLOW ++ py "< " ++ str_of_int i ++ py ". " ++ title n ++ py " >";
    Fore_CYAN ++ str_mul (py "-") 90;
    Fore_WHITE ++ summary n ++ NL;
    Fore_MAGENTA ++ py "Дата: " ++ date n;
    Fore_BLUE ++ py "Источник: " ++ source n;
    Fore_GREEN ++ py "Ссылка: " ++ link n ++ NL;
    Fore_CYAN ++ py "<" ++ str_mul (py "=") 88 ++ py ">" ++ NL ].

(** The arguments of the [print] calls of [print_news], in order, for a
    run in which every call returns. *)
Fixpoint enumerate_lines (i : Z) (news : list DigestItem) : list str :=
  match news with
  | [] => []
  | n :: rest => item_lines i n ++ enumerate_lines (i + 1) rest
  end.

Definition header_lines : list str :=
  [ NL ++ str_mul (py "=") 90;
    center (py " ЕЖЕНЕДЕЛЬНАЯ ПОДБОРКА НОВОСТЕЙ ") 90 61%N;
    str_mul (py "=") 90 ++ NL ].

Definition footer_lines : list str :=
  [ Fore_GREEN ++ py "Конец подборки.";
    str_mul (py "=") 90 ++ NL ].

Definition print_news_lines (news : list DigestItem) : list str :=
  header_lines ++ enumerate_lines 1 news ++ footer_lines.

(** The three lines [save_to_md] appends for an item. *)
Definition md_block (n : DigestItem) : list str :=
  [ py "### " ++ title n ++ NL;
    summary n ++ NL;
    py "_" ++ date n ++ py " • " ++ source n ++ py "_  " ++ NL
      ++ py "[" ++ link n ++ py "](" ++ link n ++ py ")" ++ NL ].

(** [md] for the heading's time stamp [stamp]. *)
Definition digest_md (stamp : str) (news : list DigestItem) : str :=
  join NL
    ((py "# Еженедельная подборка новостей (" ++ stamp ++ py ")" ++ NL)
     :: concat (List.map md_block news)).

Definition saved_line (output_path : str) : str :=
  Fore_GREEN ++ py "Файл digest.md сохранён в: " ++ output_path ++ NL.

Definition banner : str :=
  Fore_CYAN ++ NL ++ py "< Сбор новостей... пожалуйста, подожди несколько секунд >" ++ NL.

Definition advice : str :=
  Fore_RED ++ py "Не удалось получить новости. Попробуйте увеличить период (--days 14).".

(** The event is the writing of a file. *)
Definition is_write (e : Event) : Prop :=
  match e with
  | WriteFile _ _ => True
  | Print _ => False
  end.

Section Presentation.
Context {E : Externals} {M : Host}.

(** Computations that change the world, may raise, and leave events. *)
Definition MT (A : Type) : Type := World -> result A * World * list Event.

Definition tret {A : Type} (a : A) : MT A := fun w => (Ok a, w, []).

Definition tbind {A B : Type} (m : MT A) (k : A -> MT B) : MT B :=
  fun w =>
    match m w with
    | (Ok a, w1, t1) => let '(r, w2, t2) := k a w1 in (r, w2, t1 ++ t2)
    | (Raise e, w1, t1) => (Raise e, w1, t1)
    end.

(** A computation that leaves no event. *)
Definition quiet {A : Type} (m : ME A) : MT A :=
  fun w => let (r, w1) := m w in (r, w1, []).

(** [print(s)] *)
Definition say (s : str) : MT unit :=
  fun w =>
    match stdout_print s w with
    | (Ok _, w1) => (Ok tt, w1, [Print s])
    | (Raise e, w1) => (Raise e, w1, [])
    end.

(** [print] calls one after the other. *)
Fixpoint say_all (lines : list str) : MT unit :=
  match lines with
  | [] => tret tt
  | s :: rest => tbind (say s) (fun _ => say_all rest)
  end.

(** [for i, n in enumerate(news, i): ...], lines 143-150 *)
Fixpoint print_items (i : Z) (news : list DigestItem) : MT unit :=
  match news with
  | [] => tret tt
  | n :: rest => tbind (say_all (item_lines i n)) (fun _ => print_items (i + 1) rest)
  end.

Definition print_news (news : list DigestItem) : MT unit :=
  tbind (say_all header_lines) (fun _ =>
  tbind (print_items 1 news) (fun _ =>
  say_all footer_lines)).

Definition save_to_md (news : list DigestItem) : MT unit :=
  fun w =>
    let md := digest_md (local_stamp w) news in
    match digest_path w with
    | Raise e => (Raise e, w, [])
    | Ok output_path =>
        match write_text output_path md w with
        | (Raise e, w1) => (Raise e, w1, [])
        | (Ok _, w1) =>
            let '(r, w2, t) := say (saved_line output_path) w1 in
            (r, w2, WriteFile output_path md :: t)
        end
    end.

(** The main block, for the parsed arguments [--days], [--limit] and
    [--use-g4f]. *)
Definition main (days limit : Z) (use_g4f : bool) : MT unit :=
  tbind (say banner) (fun _ =>
  tbind (quiet (fetch_news days limit use_g4f)) (fun news =>
  match news with
  | [] => say advice
  | _ :: _ => tbind (print_news news) (fun _ => save_to_md news)
  end)).

(** The events of [m] are the [print] calls of [lines], in order, as far as
    it gets: all of them when it returns. *)
Definition prints (m : MT unit) (lines : list str) : Prop :=
  forall w r w' t,
    m w = (r, w', t) ->
    t `prefix_of` List.map Print lines
    /\ (r = Ok tt -> t = List.map Print lines).

End Presentation.

(** A machine for the examples: the terminal prints every line, it is 12:00
    on 5 January 2024, and the file can be written. *)
Definition example_host : @Host example_world :=
  @Build_Host example_world
    (fun _ (w : nat) => (Ok tt, w))
    (fun _ => py "05.01.2024 12:00")
    (fun _ => Ok (py "/home/user/digest.md"))
    (fun _ _ (w : nat) => (Ok tt, S w)).

(** The same machine with a terminal that cannot print the advice. *)
Definition mute_host : @Host example_world :=
  @Build_Host example_world
    (fun s (w : nat) => (if decide (s = advice) then Raise UnicodeEncodeError else Ok tt, w))
    (fun _ => py "05.01.2024 12:00")
    (fun _ => Ok (py "/home/user/digest.md"))
    (fun _ _ (w : nat) => (Ok tt, S w)).



(** The items and the digest of the example run. *)
Definition example_news : list DigestItem :=
  match fetch_news (E := example_world) 7 7 false 0%nat with
  | (Ok news, _) => news
  | (Raise _, _) => []
  end.

Definition example_digest : str := digest_md (py "05.01.2024 12:00") example_news.

(** * Properties *)

(** ** How the program ends *)

Section Returns.
Context {E : Externals}.

Lemma parse_datetime_returns (dt_str : str) :
  exists r, parse_datetime dt_str = Ok r.
Proof.
  unfold parse_datetime.
  destruct (is_empty dt_str); [by eexists|].
  destruct (dtparser_parse dt_str) as [dt|e]; simpl; [|by eexists].
  destruct (tzinfo dt) as [off|]; simpl; [|by eexists].
  unfold astimezone_utc. destruct (in_range _); simpl; by eexists.
Qed.


Lemma summarize_with_g4f_returns (text : str) (w : World) :
  exists s w', summarize_with_g4f text w = (Ok s, w').
Proof.
  unfold summarize_with_g4f.
  destruct (import_g4f w) as [[u|e] w1]; [|by eexists _, _].
  unfold try_except_m, bind.
  destruct (g4f_create (g4f_messages text) w1) as [[r|e] w2]; by eexists _, _.
Qed.

(** What a loop that ends well has kept: every invariant that each round
    that ends well keeps. *)
Lemma for_each_ok {A S : Type} (P : S -> Prop) (body : A -> S -> ME S) (xs : list A) :
  (forall x s w s' w', x ∈ xs -> P s -> body x s w = (Ok s', w') -> P s') ->
  forall s w s' w', P s -> for_each xs body s w = (Ok s', w') -> P s'.
Proof.
  induction xs as [|x xs IH]; intros Hbody s w s' w' Hs; simpl.
  - by intros [= <- _].
  - unfold bind. destruct (body x s w) as [[s1|e] w1] eqn:Hx; [|discriminate].
    apply IH.
    + intros y s2 w2 s3 w3 Hy. apply Hbody. apply elem_of_cons. by right.
    + eapply Hbody; [|done..]. apply elem_of_cons. by left.
Qed.

(** A loop whose rounds all end well ends well. *)
Lemma for_each_returns {A S : Type} (body : A -> S -> ME S) (xs : list A) :
  (forall x s w, x ∈ xs -> exists s' w', body x s w = (Ok s', w')) ->
  forall s w, exists s' w', for_each xs body s w = (Ok s', w').
Proof.
  induction xs as [|x xs IH]; intros Hbody s w; simpl.
  - by exists s, w.
  - destruct (Hbody x s w) as (s1 & w1 & Hx); [apply elem_of_cons; by left|].
    unfold bind. rewrite Hx. apply IH.
    intros y s2 w2 Hy. apply Hbody. apply elem_of_cons. by right.
Qed.

(** The ways through the loop body, lines 101-123: the title cannot be
    normalised; it is empty; the description cannot be normalised; the entry
    is too old; one item is appended. *)
Lemma process_entry_cases cutoff use_g4f category source_name entry all_news w :
  match strip_html (Some (default [] (entry_title entry))) with
  | Raise e =>
      process_entry cutoff use_g4f category source_name entry all_news w = (Raise e, w)
  | Ok title =>
      if is_empty title
      then process_entry cutoff use_g4f category source_name entry all_news w
           = (Ok all_news, w)
      else
        match strip_html (Some (py_or (default [] (entry_summary entry))
                                      (default [] (entry_description entry)))) with
        | Raise e =>
            process_entry cutoff use_g4f category source_name entry all_news w
            = (Raise e, w)
        | Ok desc =>
            exists dt,
              parse_datetime (py_or (default [] (entry_published entry))
                                    (default [] (entry_updated entry))) = Ok dt
              /\ if too_old dt cutoff
                 then process_entry cutoff use_g4f category source_name entry all_news w
                      = (Ok all_news, w)
                 else exists summary w',
                     (if use_g4f then summarize_with_g4f desc w
                      else (Ok (summarize_naive desc 2 300), w)) = (Ok summary, w')
                     /\ process_entry cutoff use_g4f category source_name entry all_news w
                        = (Ok (all_news ++ [ mk_item title summary (date_field dt)
                                                     source_name
                                                     (default [] (entry_link entry))
                                                     category ]), w')
        end
  end.
Proof.
  unfold process_entry, bind, lift, ret.
  destruct (strip_html (Some (default [] (entry_title entry)))) as [title|e]; [|done].
  destruct (is_empty title); [done|].
  destruct (strip_html (Some (py_or _ _))) as [desc|e]; [|done].
  destruct (parse_datetime_returns (py_or (default [] (entry_published entry))
                                          (default [] (entry_updated entry)))) as [dt Hdt].
  exists dt. split; [done|]. rewrite Hdt.
  destruct (too_old dt cutoff); [done|].
  destruct use_g4f.
  - destruct (summarize_with_g4f_returns desc w) as (s & w' & Hs).
    exists s, w'. by rewrite Hs.
  - by eexists _, w.
Qed.

(** The loops keep every invariant of [all_news] that is kept by each round
    that ends well of the loop body, on an entry that a feed of the table
    returned. *)
Lemma collect_ok (P : list DigestItem -> Prop) feeds cutoff use_g4f :
  P [] ->
  (forall category fs source_name url w0 entries w1 entry all_news w news w',
      (category, fs) ∈ feeds -> (source_name, url) ∈ fs ->
      feedparser_parse url w0 = (Ok entries, w1) -> entry ∈ entries ->
      P all_news ->
      process_entry cutoff use_g4f category source_name entry all_news w = (Ok news, w') ->
      P news) ->
  forall w all_news w', collect feeds cutoff use_g4f w = (Ok all_news, w') -> P all_news.
Proof.
  intros Hnil Hentry w all_news w'. unfold collect.
  apply for_each_ok; [|done].
  intros [category fs] s w0 s' w0' Hcf Hs; simpl.
  apply for_each_ok; [|done].
  intros [source_name url] s1 w1 s1' w1' Hsrc Hs1. unfold process_feed, bind; simpl.
  destruct (feedparser_parse url w1) as [[entries|e] w2] eqn:Hfeed; [|discriminate].
  apply for_each_ok; [|done].
  intros entry s2 w3 s2' w3' Hin Hs2. by eapply Hentry.
Qed.

(** When no feed and no document makes its library raise, the loops end
    well. *)
Lemma collect_returns feeds cutoff use_g4f w :
  (forall url w0, exists entries w1, feedparser_parse url w0 = (Ok entries, w1)) ->
  (forall html, exists soup, soup_strings html = Ok soup) ->
  exists all_news w', collect feeds cutoff use_g4f w = (Ok all_news, w').
Proof.
  intros Hfeed Hsoup. unfold collect.
  assert (Hstrip : forall html, exists s, strip_html html = Ok s).
  { intros [h|]; simpl; [|by eexists]. destruct (is_empty h); [by eexists|].
    destruct (Hsoup h) as [soup ->]. by eexists. }
  apply for_each_returns. intros [category fs] s w0 _; simpl.
  apply for_each_returns. intros [source_name url] s1 w1 _.
  unfold process_feed, bind; simpl.
  destruct (Hfeed url w1) as (entries & w2 & ->).
  apply for_each_returns. intros entry s2 w3 _.
  pose proof (process_entry_cases cutoff use_g4f category source_name entry s2 w3) as Hc.
  destruct (Hstrip (Some (default [] (entry_title entry)))) as [title Ht].
  rewrite Ht in Hc. destruct (is_empty title); [by eexists _, _|].
  destruct (Hstrip (Some (py_or (default [] (entry_summary entry))
                                (default [] (entry_description entry))))) as [desc Hd].
  rewrite Hd in Hc. destruct Hc as (dt & _ & Hc).
  destruct (too_old dt cutoff); [by eexists _, _|].
  destruct Hc as (sm & w4 & _ & Hc). by eexists _, _.
Qed.

(** [fetch_news] ends as its second line or its loops end; when they end
    well it returns lines 125-134 of what the loops collected. *)
Lemma fetch_news_ok days limit use_g4f w news w' :
  fetch_news days limit use_g4f w = (Ok news, w') ->
  exists cutoff all_news,
    cutoff_of w days = Ok cutoff
    /\ collect FEEDS cutoff use_g4f w = (Ok all_news, w')
    /\ news = dedup_sort_limit all_news limit.
Proof.
  unfold fetch_news, bind, ret.
  destruct (cutoff_of w days) as [cutoff|e] eqn:Hc; [|discriminate].
  destruct (collect FEEDS cutoff use_g4f w) as [[all_news|e] w1] eqn:Hcol; [|discriminate].
  intros [= <- <-]. by exists cutoff, all_news.
Qed.

Lemma fetch_news_of_collect days limit use_g4f w cutoff r w' :
  cutoff_of w days = Ok cutoff ->
  collect FEEDS cutoff use_g4f w = (r, w') ->
  fetch_news days limit use_g4f w
  = (match r with
     | Ok all_news => Ok (dedup_sort_limit all_news limit)
     | Raise e => Raise e
     end, w').
Proof.
  intros Hc Hcol. unfold fetch_news, bind, ret. rewrite Hc, Hcol. by destruct r.
Qed.

Lemma fetch_news_raises days limit use_g4f w e :
  cutoff_of w days = Raise e ->
  fetch_news days limit use_g4f w = (Raise e, w).
Proof. intros Hc. unfold fetch_news, bind. by rewrite Hc. Qed.

End Returns.

(** ** Whitespace *)

Section Whitespace.

Lemma lstrip_app_nonspace (l r : str) (c : N) :
  isspace c = false -> lstrip (l ++ c :: r) = lstrip l ++ c :: r.
Proof.
  intros Hc. induction l as [|a l IH]; simpl.
  - by rewrite Hc.
  - destruct (isspace a); [exact IH | reflexivity].
Qed.

Lemma lstrip_app_space (l : str) (c : N) :
  isspace c = true ->
  lstrip (l ++ [c]) = match lstrip l with [] => [] | t => t ++ [c] end.
Proof.
  intros Hc. induction l as [|a l IH]; simpl.
  - by rewrite Hc.
  - destruct (isspace a); [exact IH | reflexivity].
Qed.

(** [rstrip] read from the left. *)
Lemma rstrip_cons (c : N) (r : str) :
  rstrip (c :: r) =
  match rstrip r with
  | [] => if isspace c then [] else [c]
  | t => c :: t
  end.
Proof.
  unfold rstrip. simpl rev at 2.
  destruct (isspace c) eqn:Hc.
  - rewrite lstrip_app_space by done.
    destruct (lstrip (rev r)) as [|a t]; [done|].
    rewrite rev_app_distr. simpl.
    destruct (rev t ++ [a]) eqn:Hr; [by destruct (rev t)|done].
  - replace (rev r ++ [c]) with (rev r ++ c :: []) by done.
    rewrite lstrip_app_nonspace by done.
    rewrite rev_app_distr. simpl.
    by destruct (rev (lstrip (rev r))).
Qed.

Lemma lstrip_suffix (s : str) :
  exists ws, s = ws ++ lstrip s /\ Forall (fun c => isspace c = true) ws.
Proof.
  induction s as [|c s (ws & Hs & Hws)]; simpl.
  - by exists [].
  - destruct (isspace c) eqn:Hc.
    + exists (c :: ws). split; [simpl; by f_equal | by constructor].
    + by exists [].
Qed.

Lemma rstrip_prefix (s : str) :
  exists ws, s = rstrip s ++ ws /\ Forall (fun c => isspace c = true) ws.
Proof.
  induction s as [|c s (ws & Hs & Hws)].
  - by exists [].
  - rewrite rstrip_cons. destruct (rstrip s) as [|a t] eqn:Hr.
    + destruct (isspace c) eqn:Hc.
      * exists (c :: ws). simpl in *. split; [by f_equal | by constructor].
      * exists ws. simpl in *. split; [by f_equal | done].
    + exists ws. split; [|done]. simpl in *. by f_equal.
Qed.

Lemma lstrip_head (s : str) (c : N) :
  head (lstrip s) = Some c -> isspace c = false.
Proof.
  induction s as [|a s IH]; simpl; [done|].
  destruct (isspace a) eqn:Ha; [exact IH|].
  simpl. by intros [= <-].
Qed.

Lemma rstrip_last (s : str) (c : N) :
  last (rstrip s) = Some c -> isspace c = false.
Proof.
  induction s as [|a s IH]; [done|].
  rewrite rstrip_cons. destruct (rstrip s) as [|b t] eqn:Hr.
  - destruct (isspace a) eqn:Ha; simpl; [done|]. by intros [= <-].
  - intros H. apply IH. by rewrite <- H.
Qed.

Lemma rstrip_head (s : str) (c : N) :
  head s = Some c -> isspace c = false -> head (rstrip s) = Some c.
Proof.
  destruct s as [|a s]; simpl; [done|]. intros [= ->] Hc.
  rewrite rstrip_cons. destruct (rstrip s); [by rewrite Hc | done].
Qed.

Lemma strip_head (s : str) (c : N) :
  head (strip s) = Some c -> isspace c = false.
Proof.
  unfold strip. destruct (lstrip s) as [|a t] eqn:Hl; [done|].
  assert (Ha : isspace a = false) by (apply (lstrip_head s); by rewrite Hl).
  rewrite (rstrip_head (a :: t) a) by done. by intros [= <-].
Qed.

Lemma strip_last (s : str) (c : N) :
  last (strip s) = Some c -> isspace c = false.
Proof. apply rstrip_last. Qed.

(** [strip] removes whitespace at both ends and nothing else. *)
Lemma strip_infix (s : str) :
  exists ws1 ws2,
    s = ws1 ++ strip s ++ ws2
    /\ Forall (fun c => isspace c = true) ws1
    /\ Forall (fun c => isspace c = true) ws2.
Proof.
  destruct (lstrip_suffix s) as (ws1 & H1 & Hws1).
  destruct (rstrip_prefix (lstrip s)) as (ws2 & H2 & Hws2).
  exists ws1, ws2. unfold strip. by rewrite <- H2.
Qed.





Lemma sub_ws_head (s : str) (c : N) :
  head (sub_ws true s) = Some c -> isspace c = false.
Proof.
  induction s as [|a s IH]; simpl; [done|].
  destruct (isspace a) eqn:Ha; [exact IH|]. simpl. by intros [= <-].
Qed.

Lemma sub_ws_only_spaces (b : bool) (s : str) (c : N) :
  c ∈ sub_ws b s -> isspace c = true -> c = 32%N.
Proof.
  revert b. induction s as [|a s IH]; intros b; simpl; [by intros ?%elem_of_nil|].
  destruct (isspace a) eqn:Ha.
  - destruct b; [apply IH|].
    intros [->|H]%elem_of_cons; [done|]. by eapply IH.
  - intros [->|H]%elem_of_cons Hc; [congruence|]. by eapply IH.
Qed.

Lemma single_spaced_cons (c1 c2 : N) (r : str) :
  single_spaced (c1 :: c2 :: r)
  = negb (isspace c1 && isspace c2) && single_spaced (c2 :: r).
Proof. reflexivity. Qed.

Lemma sub_ws_single_spaced (b : bool) (s : str) : single_spaced (sub_ws b s) = true.
Proof.
  revert b. induction s as [|a s IH]; intros b; simpl; [done|].
  destruct (isspace a) eqn:Ha.
  - destruct b; [apply IH|].
    specialize (IH true). pose proof (sub_ws_head s) as Hh.
    destruct (sub_ws true s) as [|c t]; [done|].
    rewrite single_spaced_cons, IH, (Hh c) by done. by rewrite andb_false_r.
  - specialize (IH false).
    destruct (sub_ws false s) as [|c t]; [done|].
    by rewrite single_spaced_cons, IH, Ha.
Qed.


Lemma single_spaced_tail (c : N) (r : str) :
  single_spaced (c :: r) = true -> single_spaced r = true.
Proof.
  destruct r as [|c2 r]; [done|].
  rewrite single_spaced_cons. by intros [_ H]%andb_true_iff.
Qed.

Lemma single_spaced_app_r (a b : str) : single_spaced (a ++ b) = true -> single_spaced b = true.
Proof.
  induction a as [|x a IH]; [done|].
  intros H. apply IH. by apply (single_spaced_tail x).
Qed.

Lemma single_spaced_app_l (a b : str) : single_spaced (a ++ b) = true -> single_spaced a = true.
Proof.
  induction a as [|x a IH]; [done|].
  destruct a as [|y a]; [done|].
  change ((x :: y :: a) ++ b) with (x :: y :: (a ++ b)).
  rewrite !single_spaced_cons.
  intros [H1 H2]%andb_true_iff. rewrite H1. by apply IH.
Qed.





End Whitespace.

(** ** The text normaliser *)

Section StripHtml.
Context {E : Externals}.


(** [strip_html] ends as the parser ends. *)
Lemma strip_html_cases (html : option str) :
  match html with
  | None => strip_html html = Ok []
  | Some h =>
      if is_empty h then strip_html html = Ok []
      else match soup_strings h with
           | Raise e => strip_html html = Raise e
           | Ok soup => strip_html html = Ok (strip (re_sub_ws (get_text soup)))
           end
  end.
Proof.
  destruct html as [h|]; simpl; [|done].
  destruct (is_empty h); [done|]. by destruct (soup_strings h).
Qed.

(** What [strip_html] returns is in normal form. *)
Lemma strip_html_normal_form (html : option str) (s : str) :
  strip_html html = Ok s ->
  (forall c, head s = Some c -> isspace c = false)
  /\ (forall c, last s = Some c -> isspace c = false)
  /\ (forall c, c ∈ s -> isspace c = true -> c = 32%N)
  /\ single_spaced s = true.
Proof.
  assert (Hnil : (forall c : N, head (@nil N) = Some c -> isspace c = false)
                 /\ (forall c : N, last (@nil N) = Some c -> isspace c = false)
                 /\ (forall c : N, c ∈ @nil N -> isspace c = true -> c = 32%N)
                 /\ single_spaced [] = true).
  { repeat split; try done. by intros c ?%elem_of_nil. }
  pose proof (strip_html_cases html) as Hc.
  destruct html as [h|]; [|rewrite Hc; by intros [= <-]].
  destruct (is_empty h); [rewrite Hc; by intros [= <-]|].
  destruct (soup_strings h) as [soup|e]; rewrite Hc; [|discriminate].
  intros [= <-].
  pose proof (strip_infix (re_sub_ws (get_text soup))) as (ws1 & ws2 & Hs & _ & _).
  split; [apply strip_head|]. split; [apply strip_last|]. split.
  - intros c Hin. apply (sub_ws_only_spaces false (get_text soup)).
    fold (re_sub_ws (get_text soup)). rewrite Hs. rewrite !elem_of_app. tauto.
  - pose proof (sub_ws_single_spaced false (get_text soup)) as Hsp.
    fold (re_sub_ws (get_text soup)) in Hsp. rewrite Hs in Hsp.
    by apply single_spaced_app_r, single_spaced_app_l in Hsp.
Qed.


End StripHtml.

(** ** The date parser *)

Section DateParser.
Context {E : Externals}.

(** C7.  [parse_datetime] never raises.  It returns [None] for the empty
    string and for a string the date parser rejects; for a string parsed to a
    naive value it returns that reading as UTC; for a string parsed to an
    aware value it returns the same instant in UTC, or [None] when that
    instant is outside the dates [datetime] represents; and whatever it
    returns is in UTC and denotes the instant of the parsed value. *)
Theorem parse_datetime_total (dt_str : str) :
  exists r,
    parse_datetime dt_str = Ok r
    /\ (dt_str = [] -> r = None)
    /\ (forall e, dtparser_parse dt_str = Raise e -> r = None)
    /\ (forall dt, dt_str <> [] -> dtparser_parse dt_str = Ok dt ->
          match tzinfo dt with
          | None => r = Some (mk_datetime (wall dt) utc)
          | Some off =>
              if in_range (wall dt - off)
              then r = Some (mk_datetime (wall dt - off) utc)
              else r = None
          end)
    /\ (forall d, r = Some d ->
          tzinfo d = utc
          /\ exists dt, dtparser_parse dt_str = Ok dt /\ instant d = instant dt).
Proof.
  unfold parse_datetime.
  destruct dt_str as [|c s]; simpl.
  { exists None. repeat split; done. }
  destruct (dtparser_parse (c :: s)) as [dt|e] eqn:Hp; simpl.
  2: { exists None. repeat split; done. }
  destruct dt as [wl [off|]]; simpl.
  - unfold astimezone_utc; simpl. destruct (in_range (wl - off)) eqn:Hr; simpl.
    + eexists. split; [done|]. split; [done|]. split; [done|]. split.
      * intros dt _ [= <-]. simpl. by rewrite Hr.
      * intros d [= <-]. split; [done|]. eexists. split; [done|].
        unfold instant; simpl. lia.
    + exists None. split; [done|]. split; [done|]. split; [done|]. split; [|done].
      intros dt _ [= <-]. simpl. by rewrite Hr.
  - eexists. split; [done|]. split; [done|]. split; [done|]. split.
    + by intros dt _ [= <-].
    + intros d [= <-]. split; [done|]. eexists. split; [done|].
      unfold instant; simpl. lia.
Qed.

End DateParser.

(** ** The recency filter *)

Section Recency.
Context {E : Externals}.

Lemma too_old_spec (dt : option datetime) (cutoff : datetime) :
  too_old dt cutoff = true <-> exists d, dt = Some d /\ instant d < instant cutoff.
Proof.
  destruct dt as [d|]; simpl.
  - unfold dt_ltb. rewrite Z.ltb_lt. split; [by exists d | by intros (? & [= <-] & ?)].
  - split; [done | by intros (? & ? & _)].
Qed.

Lemma cutoff_of_instant (w : World) (days : Z) (cutoff : datetime) :
  cutoff_of w days = Ok cutoff ->
  instant cutoff = clock w - days * US_PER_DAY /\ tzinfo cutoff = utc.
Proof.
  unfold cutoff_of, sub_days, now_utc. simpl.
  destruct (_ && _); [|discriminate].
  intros [= <-]. unfold instant. simpl. split; [lia|done].
Qed.

(** C2.  The cutoff of a run is the clock's reading less [days] days.  Take
    an entry that reaches the recency filter: its title is normalised to
    [title], not empty, and its summary, or else its description, to [desc].
    Its date string, the [published] field or else the [updated] field, is
    parsed to a date or to [None], and the entry is skipped exactly when
    that is a date strictly before the cutoff; otherwise one item is
    appended for it, whose date is ["unknown"] when the date string does not
    parse. *)
Theorem recency_filter (cutoff : datetime) (use_g4f : bool) (category source_name : str)
    (entry : RawEntry) (all_news : list DigestItem) (w : World) (title desc : str) :
  strip_html (Some (default [] (entry_title entry))) = Ok title ->
  is_empty title = false ->
  strip_html (Some (py_or (default [] (entry_summary entry))
                          (default [] (entry_description entry)))) = Ok desc ->
  (forall w0 days, cutoff_of w0 days = Ok cutoff ->
                   instant cutoff = clock w0 - days * US_PER_DAY)
  /\ exists dt,
    parse_datetime (py_or (default [] (entry_published entry))
                          (default [] (entry_updated entry))) = Ok dt
    /\ ((exists d, dt = Some d /\ instant d < instant cutoff) ->
          process_entry cutoff use_g4f category source_name entry all_news w
          = (Ok all_news, w))
    /\ (~ (exists d, dt = Some d /\ instant d < instant cutoff) ->
          exists summary w',
            (if use_g4f then summarize_with_g4f desc w
             else (Ok (summarize_naive desc 2 300), w)) = (Ok summary, w')
            /\ process_entry cutoff use_g4f category source_name entry all_news w
               = (Ok (all_news ++ [ mk_item title summary
                                            (match dt with
                                             | Some d => isoformat d
                                             | None => py "unknown"
                                             end)
                                            source_name
                                            (default [] (entry_link entry)) category ]), w'))
    /\ (dt = None -> ~ (exists d, dt = Some d /\ instant d < instant cutoff)).
Proof.
  intros Ht Hne Hd. split; [intros w0 days Hc; by apply cutoff_of_instant in Hc as [? _]|].
  pose proof (process_entry_cases cutoff use_g4f category source_name entry all_news w) as Hc.
  rewrite Ht, Hne, Hd in Hc. destruct Hc as (dt & Hdt & Hc).
  exists dt. split; [done|].
  pose proof (too_old_spec dt cutoff) as Hold.
  destruct (too_old dt cutoff); split; [|split| |split].
  - done.
  - intros Hn. exfalso. apply Hn. by apply Hold.
  - intros ->. by intros (d & ? & _).
  - intros Hx%Hold. discriminate.
  - intros _. exact Hc.
  - intros ->. by intros (d & ? & _).
Qed.

(** The description is normalised before the date is looked at: an entry
    whose description the parser rejects ends the run, however old it is. *)
Lemma rejected_description_raises (cutoff : datetime) (use_g4f : bool)
    (category source_name : str) (entry : RawEntry) (all_news : list DigestItem) (w : World)
    (title : str) (e : exn) :
  strip_html (Some (default [] (entry_title entry))) = Ok title ->
  is_empty title = false ->
  strip_html (Some (py_or (default [] (entry_summary entry))
                          (default [] (entry_description entry)))) = Raise e ->
  process_entry cutoff use_g4f category source_name entry all_news w = (Raise e, w).
Proof.
  intros Ht Hne Hd.
  pose proof (process_entry_cases cutoff use_g4f category source_name entry all_news w) as Hc.
  by rewrite Ht, Hne, Hd in Hc.
Qed.

End Recency.

(** ** Deduplication, sorting and truncation *)

Section Pipeline.
Context {E : Externals}.

Lemma insert_reverse_perm {A : Type} (key : A -> str) (x : A) (l : list A) :
  insert_reverse key x l ≡ₚ x :: l.
Proof.
  induction l as [|h t IH]; simpl; [done|].
  destruct (str_ltb (key x) (key h)); [|done].
  rewrite IH. apply Permutation_swap.
Qed.

Lemma sort_reverse_perm {A : Type} (key : A -> str) (l : list A) :
  sort_reverse key l ≡ₚ l.
Proof.
  induction l as [|x l IH]; simpl; [done|].
  by rewrite insert_reverse_perm, IH.
Qed.

Lemma sort_reverse_length {A : Type} (key : A -> str) (l : list A) :
  length (sort_reverse key l) = length l.
Proof. apply Permutation_length, sort_reverse_perm. Qed.

Lemma slice_to_take {A : Type} (l : list A) (k : Z) :
  exists n, slice_to l k = take n l.
Proof. unfold slice_to. destruct (0 <=? k); by eexists. Qed.

Lemma slice_to_elem {A : Type} (l : list A) (k : Z) (x : A) :
  x ∈ slice_to l k -> x ∈ l.
Proof.
  destruct (slice_to_take l k) as [n ->].
  intros H. rewrite <- (take_drop n l). set_solver.
Qed.

Lemma dedup_elem (all_news : list DigestItem) seen unique (x : DigestItem) :
  x ∈ dedup all_news seen unique -> x ∈ unique \/ x ∈ all_news.
Proof.
  revert seen unique. induction all_news as [|n rest IH]; intros seen unique; simpl.
  - by left.
  - destruct (decide (fingerprint n ∈ seen)).
    + intros Hx. apply IH in Hx. rewrite elem_of_cons. tauto.
    + intros Hx. apply IH in Hx.
      rewrite elem_of_app, list_elem_of_singleton in Hx. rewrite elem_of_cons. tauto.
Qed.

Lemma dedup_sort_limit_elem (all_news : list DigestItem) (limit : Z) (x : DigestItem) :
  x ∈ dedup_sort_limit all_news limit -> x ∈ all_news.
Proof.
  unfold dedup_sort_limit. intros H%slice_to_elem.
  rewrite sort_reverse_perm in H. apply dedup_elem in H as [H|H]; [|done].
  by apply elem_of_nil in H.
Qed.

End Pipeline.

(** ** The g4f summarizer *)

Section G4f.
Context {E : Externals}.

Lemma service_fails_naive (w : World) (text : str) :
  service_fails w text ->
  exists w', summarize_with_g4f text w = (Ok (summarize_naive text 2 300), w').
Proof.
  unfold summarize_with_g4f.
  intros [(e & w1 & Hi) | (u & w1 & e & w2 & Hi & Hc)]; rewrite Hi.
  - by exists w1.
  - unfold try_except_m, bind. rewrite Hc. by exists w2.
Qed.

(** With a service that fails on every call, the loop body appends the item
    with the naive summary of the entry's own description. *)
Lemma process_entry_service_fails cutoff category source_name entry all_news w news w' :
  (forall w0 t, service_fails w0 t) ->
  process_entry cutoff true category source_name entry all_news w = (Ok news, w') ->
  news = all_news
  \/ exists title desc dt,
       strip_html (Some (default [] (entry_title entry))) = Ok title
       /\ strip_html (Some (py_or (default [] (entry_summary entry))
                                  (default [] (entry_description entry)))) = Ok desc
       /\ parse_datetime (py_or (default [] (entry_published entry))
                                (default [] (entry_updated entry))) = Ok dt
       /\ news = all_news ++ [ mk_item title (summarize_naive desc 2 300) (date_field dt)
                                       source_name (default [] (entry_link entry))
                                       category ].
Proof.
  intros Hfail.
  pose proof (process_entry_cases cutoff true category source_name entry all_news w) as Hc.
  destruct (strip_html (Some (default [] (entry_title entry)))) as [title|e];
    [|rewrite Hc; discriminate].
  destruct (is_empty title); [rewrite Hc; intros [= <- _]; by left|].
  destruct (strip_html (Some (py_or _ _))) as [desc|e]; [|rewrite Hc; discriminate].
  destruct Hc as (dt & Hdt & Hc).
  destruct (too_old dt cutoff); [rewrite Hc; intros [= <- _]; by left|].
  destruct Hc as (sm & w1 & Hsm & ->).
  destruct (service_fails_naive w desc (Hfail _ _)) as [w2 Hs].
  rewrite Hs in Hsm. injection Hsm as <- <-.
  intros [= <- _]. right. by exists title, desc, dt.
Qed.

(** C6.  [summarize_with_g4f] never raises; when the import of the library
    fails, or the request to the service raises, it returns
    [summarize_naive] of the same text; hence when the service fails on every
    call, every item that [fetch_news] with g4f enabled returns carries the
    naive summary of the description of the entry it was built from, an
    entry that a read of its feed returned. *)
Theorem summarize_with_g4f_falls_back (text : str) (w : World) (days limit : Z) :
  (exists s w', summarize_with_g4f text w = (Ok s, w'))
  /\ (forall e w1,
        import_g4f w = (Raise e, w1) ->
        summarize_with_g4f text w = (Ok (summarize_naive text 2 300), w1))
  /\ (forall u w1 e w2,
        import_g4f w = (Ok u, w1) ->
        g4f_create (g4f_messages text) w1 = (Raise e, w2) ->
        summarize_with_g4f text w = (Ok (summarize_naive text 2 300), w2))
  /\ ((forall w0 t, service_fails w0 t) ->
      forall news w',
        fetch_news days limit true w = (Ok news, w') ->
        Forall (naive_item_of_feed FEEDS) news).
Proof.
  split; [apply summarize_with_g4f_returns|].
  split; [|split].
  - intros e w1 Hi. unfold summarize_with_g4f. by rewrite Hi.
  - intros u w1 e w2 Hi Hc. unfold summarize_with_g4f, try_except_m, bind.
    by rewrite Hi, Hc.
  - intros Hfail news w' (cutoff & all_news & _ & Hcol & ->)%fetch_news_ok.
    assert (Hall : Forall (naive_item_of_feed FEEDS) all_news).
    { revert Hcol. apply (collect_ok (Forall (naive_item_of_feed FEEDS))); [by apply Forall_nil|].
      intros category fs source_name url w0 entries w1 entry l w2 l' w3
        Hcat Hsrc Hfeed Hin Hl Hstep.
      apply (process_entry_service_fails _ _ _ _ _ _ _ _ Hfail) in Hstep
        as [->|(title & desc & dt & Ht & Hd & Hdt & ->)]; [done|].
      apply Forall_app. split; [done|]. apply Forall_singleton.
      exists fs, url, w0, entries, w1, entry, desc. simpl.
      repeat split; try done. by exists dt. }
    apply Forall_forall. intros n Hn%dedup_sort_limit_elem.
    by apply (proj1 (Forall_forall _ _) Hall).
Qed.

End G4f.

(** ** The order of strings *)

Section StrOrder.

Lemma str_ltb_irrefl (a : str) : str_ltb a a = false.
Proof.
  induction a as [|x a IH]; simpl; [done|].
  by rewrite N.ltb_irrefl.
Qed.

Lemma str_ltb_asym (a b : str) : str_ltb a b = true -> str_ltb b a = false.
Proof.
  revert b. induction a as [|x a IH]; intros [|y b]; simpl; try done.
  destruct (N.ltb_spec x y), (N.ltb_spec y x); try done; try lia.
  apply IH.
Qed.

Lemma str_ge_trans (a b c : str) :
  str_ltb a b = false -> str_ltb b c = false -> str_ltb a c = false.
Proof.
  revert b c. induction a as [|x a IH]; intros [|y b] [|z c]; simpl; try done.
  destruct (N.ltb_spec x y), (N.ltb_spec y x), (N.ltb_spec y z), (N.ltb_spec z y),
    (N.ltb_spec x z), (N.ltb_spec z x); try done; try lia.
  apply IH.
Qed.

Lemma digit_below_u (d : Z) : (digit d <? 117)%N = true.
Proof.
  unfold digit. apply N.ltb_lt.
  pose proof (Z.mod_pos_bound d 10 ltac:(lia)). lia.
Qed.

(** Every ISO date is below ["unknown"]: it begins with a digit. *)
Lemma isoformat_below_unknown (d : datetime) :
  str_ltb (isoformat d) (py "unknown") = true.
Proof.
  unfold isoformat. destruct (ord2ymd _) as [[y m] dd].
  change (py "unknown") with (117%N :: py "nknown").
  unfold pad4. cbn [app str_ltb]. by rewrite digit_below_u.
Qed.

End StrOrder.

(** ** The sort *)

Section SortFacts.
Context {A : Type} (key : A -> str).

Lemma insert_reverse_sorted (x : A) (l : list A) :
  StronglySorted (key_ge key) l -> StronglySorted (key_ge key) (insert_reverse key x l).
Proof.
  induction 1 as [|h t Ht IH Hh]; simpl.
  - by repeat constructor.
  - destruct (str_ltb (key x) (key h)) eqn:Hx.
    + constructor; [done|].
      rewrite insert_reverse_perm. constructor; [|done].
      by apply str_ltb_asym.
    + constructor; [by constructor|].
      constructor; [done|].
      eapply Forall_impl; [exact Hh|].
      intros y Hy. by eapply str_ge_trans.
Qed.

Lemma sort_reverse_sorted (l : list A) : StronglySorted (key_ge key) (sort_reverse key l).
Proof.
  induction l as [|x l IH]; simpl; [constructor | by apply insert_reverse_sorted].
Qed.

(** The sort is stable: the elements of one key keep their order. *)
Lemma insert_reverse_stable (k : str) (x : A) (l : list A) :
  List.filter (fun y => bool_decide (key y = k)) (insert_reverse key x l)
  = List.filter (fun y => bool_decide (key y = k)) (x :: l).
Proof.
  induction l as [|h t IH]; [done|]. simpl.
  destruct (str_ltb (key x) (key h)) eqn:Hx; [|done].
  simpl. rewrite IH. simpl.
  destruct (bool_decide (key h = k)) eqn:Hh, (bool_decide (key x = k)) eqn:Hxk; try done.
  apply bool_decide_eq_true in Hh, Hxk.
  rewrite Hh, Hxk, str_ltb_irrefl in Hx. done.
Qed.

Lemma sort_reverse_stable (k : str) (l : list A) :
  List.filter (fun y => bool_decide (key y = k)) (sort_reverse key l)
  = List.filter (fun y => bool_decide (key y = k)) l.
Proof.
  induction l as [|x l IH]; [done|].
  simpl sort_reverse. rewrite insert_reverse_stable. simpl. by rewrite IH.
Qed.

Lemma StronglySorted_take' (R : A -> A -> Prop) (n : nat) (l : list A) :
  StronglySorted R l -> StronglySorted R (take n l).
Proof.
  intros H. revert n. induction H as [|h t Ht IH Hh]; intros [|n]; simpl; try constructor.
  - apply IH.
  - rewrite <- (take_drop n t) in Hh. by apply Forall_app in Hh as [? _].
Qed.

(** In a sorted list an element never precedes one of greater key. *)
Lemma sorted_never_inverted (l1 l2 l3 : list A) (x y : A) :
  StronglySorted (key_ge key) (l1 ++ x :: l2 ++ y :: l3) -> str_ltb (key x) (key y) = false.
Proof.
  induction l1 as [|h l1 IH]; simpl.
  - intros H. apply StronglySorted_inv in H as [_ H].
    apply Forall_app in H as [_ H]. by apply Forall_cons in H as [H _].
  - intros H. apply StronglySorted_inv in H as [H _]. by apply IH.
Qed.

End SortFacts.

Section Order.
Context {E : Externals}.

(** The result is in descending order of the [date] strings. *)
Lemma dedup_sort_limit_sorted (all_news : list DigestItem) (limit : Z) :
  StronglySorted (key_ge date) (dedup_sort_limit all_news limit).
Proof.
  unfold dedup_sort_limit.
  destruct (slice_to_take (sort_reverse date (dedup all_news ∅ [])) limit) as [n ->].
  apply StronglySorted_take', sort_reverse_sorted.
Qed.

(** So an item dated ["unknown"] never follows an item with an ISO date. *)
Lemma unknown_never_after_dated (all_news : list DigestItem) (limit : Z)
    (l1 l2 l3 : list DigestItem) (x y : DigestItem) (d : datetime) :
  dedup_sort_limit all_news limit = l1 ++ x :: l2 ++ y :: l3 ->
  date y = py "unknown" ->
  date x <> isoformat d.
Proof.
  intros Hres Hy Hx.
  pose proof (dedup_sort_limit_sorted all_news limit) as Hs. rewrite Hres in Hs.
  apply sorted_never_inverted in Hs. rewrite Hx, Hy in Hs.
  by rewrite isoformat_below_unknown in Hs.
Qed.

End Order.

(** ** Deduplication *)

Section Dedup.
Context {E : Externals}.

(** [unique] only grows at its end. *)
Lemma dedup_acc (all_news : list DigestItem) (seen : gset str) (unique : list DigestItem) :
  dedup all_news seen unique = unique ++ dedup all_news seen [].
Proof.
  revert seen unique. induction all_news as [|n rest IH]; intros seen unique; simpl.
  - by rewrite app_nil_r.
  - destruct (decide (fingerprint n ∈ seen)); [apply IH|].
    rewrite (IH _ (unique ++ [n])), (IH _ [n]). by rewrite <- app_assoc.
Qed.

Lemma dedup_cons (n : DigestItem) (rest : list DigestItem) (seen : gset str) :
  dedup (n :: rest) seen [] =
  if decide (fingerprint n ∈ seen) then dedup rest seen []
  else n :: dedup rest ({[fingerprint n]} ∪ seen) [].
Proof.
  simpl. destruct (decide (fingerprint n ∈ seen)); [done|]. by rewrite dedup_acc.
Qed.

(** What is kept has a fingerprint not seen before. *)
Lemma dedup_fresh (all_news : list DigestItem) (seen : gset str) (x : DigestItem) :
  x ∈ dedup all_news seen [] -> fingerprint x ∉ seen.
Proof.
  revert seen. induction all_news as [|n rest IH]; intros seen.
  - by intros ?%elem_of_nil.
  - rewrite dedup_cons. destruct (decide (fingerprint n ∈ seen)) as [Hin|Hout].
    + apply IH.
    + intros [->|Hx]%elem_of_cons; [done|].
      apply IH in Hx. intros ?. apply Hx. apply elem_of_union. by right.
Qed.

(** The fingerprints of what is kept are pairwise different. *)
Lemma dedup_NoDup (all_news : list DigestItem) (seen : gset str) :
  NoDup (List.map fingerprint (dedup all_news seen [])).
Proof.
  revert seen. induction all_news as [|n rest IH]; intros seen.
  - constructor.
  - rewrite dedup_cons. destruct (decide (fingerprint n ∈ seen)) as [Hin|Hout]; [apply IH|].
    simpl. constructor; [|apply IH].
    intros (x & Hfx & Hx)%list_elem_of_fmap.
    apply dedup_fresh in Hx. apply Hx. rewrite <- Hfx.
    apply elem_of_union. left. by apply elem_of_singleton.
Qed.

(** What is kept is the first item of [all_news] with its fingerprint. *)
Lemma dedup_first (all_news : list DigestItem) (seen : gset str) (x : DigestItem) :
  x ∈ dedup all_news seen [] ->
  List.find (fun n => bool_decide (fingerprint n = fingerprint x)) all_news = Some x.
Proof.
  revert seen. induction all_news as [|n rest IH]; intros seen.
  - by intros ?%elem_of_nil.
  - rewrite dedup_cons. simpl.
    destruct (decide (fingerprint n ∈ seen)) as [Hin|Hout].
    + intros Hx. pose proof (dedup_fresh _ _ _ Hx) as Hfresh.
      rewrite bool_decide_eq_false_2 by congruence. by eapply IH.
    + intros [->|Hx]%elem_of_cons.
      * by rewrite bool_decide_eq_true_2.
      * pose proof (dedup_fresh _ _ _ Hx) as Hfresh.
        rewrite bool_decide_eq_false_2; [by eapply IH|].
        intros Heq. apply Hfresh. rewrite <- Heq.
        apply elem_of_union. left. by apply elem_of_singleton.
Qed.

Lemma same_pair_fingerprint (t s : str) (x y : DigestItem) :
  same_pair t s x = true -> same_pair t s y = true -> fingerprint x = fingerprint y.
Proof.
  unfold same_pair, fingerprint.
  intros [?%bool_decide_eq_true ?%bool_decide_eq_true]%andb_true_iff
         [?%bool_decide_eq_true ?%bool_decide_eq_true]%andb_true_iff.
  congruence.
Qed.

Lemma filter_NoDup_le1 {A B : Type} (f : A -> B) (P : A -> bool) (l : list A) :
  NoDup (List.map f l) ->
  (forall x y, P x = true -> P y = true -> f x = f y) ->
  (length (List.filter P l) <= 1)%nat.
Proof.
  intros Hnd HP. induction l as [|a l IH]; simpl; [lia|].
  apply NoDup_cons in Hnd as [Ha Hnd].
  destruct (P a) eqn:HPa; [|by apply IH].
  assert (Hnone : List.filter P l = []).
  { clear IH. induction l as [|b l IHl]; simpl; [done|].
    destruct (P b) eqn:HPb.
    - exfalso. apply Ha. simpl. rewrite (HP a b) by done. apply elem_of_cons. by left.
    - apply IHl.
      + intros Hin. apply Ha. simpl. apply elem_of_cons. by right.
      + by apply NoDup_cons in Hnd as [_ ?]. }
  rewrite Hnone. simpl. lia.
Qed.

Lemma find_refine {A : Type} (P Q : A -> bool) (l : list A) (x : A) :
  List.find P l = Some x ->
  Q x = true ->
  (forall y, Q y = true -> P y = true) ->
  List.find Q l = Some x.
Proof.
  intros Hf Hx HQP. induction l as [|a l IH]; simpl in *; [done|].
  destruct (P a) eqn:HPa.
  - injection Hf as ->. by rewrite Hx.
  - destruct (Q a) eqn:HQa; [|by apply IH].
    apply HQP in HQa. congruence.
Qed.

Lemma NoDup_take' {A : Type} (n : nat) (l : list A) : NoDup l -> NoDup (take n l).
Proof.
  intros H. rewrite <- (take_drop n l) in H. by apply NoDup_app in H as [? _].
Qed.

Lemma result_NoDup (all_news : list DigestItem) (limit : Z) :
  NoDup (List.map fingerprint (dedup_sort_limit all_news limit)).
Proof.
  unfold dedup_sort_limit.
  destruct (slice_to_take (sort_reverse date (dedup all_news ∅ [])) limit) as [n ->].
  change (List.map fingerprint) with (fmap (M := list) fingerprint).
  rewrite fmap_take. apply NoDup_take'.
  rewrite (sort_reverse_perm date). apply dedup_NoDup.
Qed.

Lemma result_first (all_news : list DigestItem) (limit : Z) (x : DigestItem) :
  x ∈ dedup_sort_limit all_news limit ->
  List.find (fun n => bool_decide (fingerprint n = fingerprint x)) all_news = Some x.
Proof.
  unfold dedup_sort_limit. intros H%slice_to_elem.
  rewrite sort_reverse_perm in H. by eapply dedup_first.
Qed.

(** C3.  Among the items [fetch_news] returns at most one has a given title
    and source: the first item with that title and source that the loops
    appended to [all_news]. *)
Theorem first_of_each_pair_wins (days limit : Z) (use_g4f : bool) (w : World)
    (news : list DigestItem) (w' : World) :
  fetch_news days limit use_g4f w = (Ok news, w') ->
  exists cutoff all_news,
    cutoff_of w days = Ok cutoff
    /\ collect FEEDS cutoff use_g4f w = (Ok all_news, w')
    /\ forall t s,
         (length (List.filter (same_pair t s) news) <= 1)%nat
         /\ forall x, x ∈ news -> same_pair t s x = true ->
                      List.find (same_pair t s) all_news = Some x.
Proof.
  intros (cutoff & all_news & Hcut & Hcol & ->)%fetch_news_ok.
  exists cutoff, all_news. split; [done|]. split; [done|]. intros t s. split.
  - apply (filter_NoDup_le1 fingerprint); [apply result_NoDup|].
    apply same_pair_fingerprint.
  - intros x Hx Hpair. apply result_first in Hx.
    eapply find_refine; [exact Hx | done |].
    intros y Hy. apply bool_decide_eq_true. by eapply same_pair_fingerprint.
Qed.

(** With the table as shipped, no source name is the end of another one, so
    titles and sources of the shipped feeds cannot run together: equal
    concatenations have equal titles and equal sources. *)
Lemma shipped_sources_never_run_together (t1 t2 s1 s2 : str) :
  s1 ∈ concat (List.map (fun cf => List.map fst (snd cf)) FEEDS) ->
  s2 ∈ concat (List.map (fun cf => List.map fst (snd cf)) FEEDS) ->
  t1 ++ s1 = t2 ++ s2 ->
  t1 = t2 /\ s1 = s2.
Proof.
  intros H1 H2 Hcat.
  assert (Hrev : rev s1 ++ rev t1 = rev s2 ++ rev t2).
  { by rewrite <- !rev_app_distr, Hcat. }
  vm_compute in H1, H2.
  repeat (apply elem_of_cons in H1 as [->|H1]); [..|by apply elem_of_nil in H1];
    repeat (apply elem_of_cons in H2 as [->|H2]); try (by apply elem_of_nil in H2);
    first [ exact (conj (app_inv_tail _ _ _ Hcat) eq_refl)
          | exfalso; vm_compute in Hrev; congruence ].
Qed.

(** C9.  The fingerprint is the digest of the title followed by the source,
    nothing between them; so two items whose concatenations agree have one
    fingerprint, whatever their titles and sources, and never both are in the
    result: the one that is, is the first in [all_news] with that
    fingerprint.  Titles ["AB"], ["A"] with sources ["C"], ["BC"] are such
    items: different pairs, one fingerprint, and only the first is kept. *)
Theorem concatenation_collides :
  (forall n, fingerprint n = sha256_hexdigest (title n ++ source n))
  /\ (forall n1 n2,
        title n1 ++ source n1 = title n2 ++ source n2 -> fingerprint n1 = fingerprint n2)
  /\ (forall n1 n2 all_news limit,
        title n1 ++ source n1 = title n2 ++ source n2 ->
        n1 <> n2 ->
        ~ (n1 ∈ dedup_sort_limit all_news limit /\ n2 ∈ dedup_sort_limit all_news limit))
  /\ (forall x all_news limit,
        x ∈ dedup_sort_limit all_news limit ->
        List.find (fun n => bool_decide (fingerprint n = fingerprint x)) all_news = Some x)
  /\ (let n1 := mk_item (py "AB") [] (py "unknown") (py "C") [] [] in
      let n2 := mk_item (py "A") [] (py "unknown") (py "BC") [] [] in
      (title n1, source n1) <> (title n2, source n2)
      /\ title n1 ++ source n1 = title n2 ++ source n2
      /\ fingerprint n1 = fingerprint n2
      /\ dedup [n1; n2] ∅ [] = [n1]
      /\ forall limit, 1 <= limit -> dedup_sort_limit [n1; n2] limit = [n1]).
Proof.
  split; [done|].
  assert (Hcol : forall n1 n2,
             title n1 ++ source n1 = title n2 ++ source n2 -> fingerprint n1 = fingerprint n2).
  { intros n1 n2 H. unfold fingerprint. by rewrite H. }
  split; [exact Hcol|]. split; [|split; [intros; by eapply result_first|]].
  - intros n1 n2 all_news limit Hcat Hne [H1 H2].
    apply result_first in H1, H2. rewrite (Hcol _ _ Hcat) in H1. congruence.
  - cbv zeta.
    set (n1 := mk_item (py "AB") [] (py "unknown") (py "C") [] []).
    set (n2 := mk_item (py "A") [] (py "unknown") (py "BC") [] []).
    assert (Hd : dedup [n1; n2] ∅ [] = [n1]).
    { rewrite dedup_cons. destruct (decide (fingerprint n1 ∈ (∅ : gset str))) as [Hin|_].
      { by apply not_elem_of_empty in Hin. }
      rewrite dedup_cons.
      destruct (decide (fingerprint n2 ∈ ({[fingerprint n1]} ∪ ∅ : gset str))) as [_|Hout];
        [done|].
      exfalso. apply Hout. apply elem_of_union. left. by apply elem_of_singleton. }
    split; [by intros [= ?]|]. split; [done|]. split; [done|]. split; [exact Hd|].
    intros limit Hl. unfold dedup_sort_limit. rewrite Hd. simpl.
    unfold slice_to. destruct (Z.leb_spec 0 limit); [|lia].
    apply take_ge. simpl. lia.
Qed.

(** C4.  When the limit is not negative, what [fetch_news] returns has at
    most [limit] items, and none when the limit is 0. *)
Theorem result_within_limit (days limit : Z) (use_g4f : bool) (w : World)
    (news : list DigestItem) (w' : World) :
  fetch_news days limit use_g4f w = (Ok news, w') ->
  0 <= limit ->
  Z.of_nat (length news) <= limit
  /\ (limit = 0 -> news = []).
Proof.
  intros (cutoff & all_news & _ & _ & ->)%fetch_news_ok Hl.
  unfold dedup_sort_limit, slice_to.
  destruct (Z.leb_spec 0 limit); [|lia].
  split.
  - rewrite length_take. lia.
  - by intros ->.
Qed.

(** C10.  Take a run whose loops collect [all_news], of which more items
    survive deduplication than [|limit|], for a negative [limit].  What
    [fetch_news] returns then is not empty: it is the sorted list without
    its last [|limit|] items.  And the limit plays no part in whether the
    call returns: it returns for every other limit too. *)
Theorem negative_limit_drops_last (days limit : Z) (use_g4f : bool) (w : World)
    (cutoff : datetime) (all_news : list DigestItem) (news : list DigestItem) (w' : World) :
  cutoff_of w days = Ok cutoff ->
  collect FEEDS cutoff use_g4f w = (Ok all_news, w') ->
  limit < 0 ->
  Z.of_nat (length (dedup all_news ∅ [])) > Z.abs limit ->
  fetch_news days limit use_g4f w = (Ok news, w') ->
  (let unique := dedup all_news ∅ [] in
   let n := Z.of_nat (length unique) in
   news = take (Z.to_nat (n - Z.abs limit)) (sort_reverse date unique)
   /\ Z.of_nat (length news) = n - Z.abs limit
   /\ news <> [])
  /\ forall limit', exists news', fetch_news days limit' use_g4f w = (Ok news', w').
Proof.
  intros Hcut Hcol Hl Hn Hf.
  rewrite (fetch_news_of_collect days limit use_g4f w cutoff _ w' Hcut Hcol) in Hf.
  injection Hf as <-. split.
  - cbv zeta. unfold dedup_sort_limit, slice_to.
    destruct (Z.leb_spec 0 limit); [lia|].
    rewrite sort_reverse_length.
    replace (Z.of_nat (length (dedup all_news ∅ [])) + limit)
      with (Z.of_nat (length (dedup all_news ∅ [])) - Z.abs limit) by lia.
    split; [done|].
    assert (Hlen : Z.of_nat (length (take (Z.to_nat (Z.of_nat (length (dedup all_news ∅ []))
                                                    - Z.abs limit))
                                      (sort_reverse date (dedup all_news ∅ []))))
                   = Z.of_nat (length (dedup all_news ∅ [])) - Z.abs limit).
    { rewrite length_take, sort_reverse_length. lia. }
    split; [exact Hlen|].
    intros Hnil. rewrite Hnil in Hlen. simpl in Hlen. lia.
  - intros limit'. eexists.
    by rewrite (fetch_news_of_collect days limit' use_g4f w cutoff _ w' Hcut Hcol).
Qed.

End Dedup.

(** ** Splitting into sentences *)

Section Split.

Lemma prepend_prepend (a b : str) (l : list str) :
  prepend a (prepend b l) = prepend (a ++ b) l.
Proof. destruct l; simpl; [done|]. by rewrite app_assoc. Qed.

(** The piece read so far is only ever extended. *)
Lemma split_go_cur (s : str) (a k : bool) (cur : str) :
  split_go a k cur s = prepend cur (split_go a k [] s).
Proof.
  revert a k cur. induction s as [|c r IH]; intros a k cur; simpl.
  - by rewrite app_nil_r.
  - destruct (isspace c).
    + destruct k; [apply IH|]. destruct a.
      * simpl. by rewrite app_nil_r.
      * rewrite (IH _ _ (cur ++ [c])), (IH _ _ [c]). by rewrite prepend_prepend.
    + rewrite (IH _ _ (cur ++ [c])), (IH _ _ [c]). by rewrite prepend_prepend.
Qed.

Lemma split_go_cons (c : N) (r : str) (a k : bool) :
  split_go a k [] (c :: r) =
  if isspace c then
    if k then split_go false true [] r
    else if a then [] :: split_go false true [] r
    else prepend [c] (split_go false false [] r)
  else prepend [c] (split_go (is_terminal c) false [] r).
Proof.
  simpl. destruct (isspace c); [destruct k; [done|]; destruct a; [done|]|];
    by rewrite split_go_cur.
Qed.

Lemma split_go_nonempty (s : str) (a k : bool) : split_go a k [] s <> [].
Proof.
  revert a k. induction s as [|c r IH]; intros a k; [done|].
  rewrite split_go_cons.
  destruct (isspace c); [destruct k; [apply IH|]; destruct a; [done|]|].
  - specialize (IH false false). by destruct (split_go false false [] r).
  - specialize (IH (is_terminal c) false). by destruct (split_go (is_terminal c) false [] r).
Qed.

Lemma weave_prepend (c : N) (ps seps : list str) :
  ps <> [] -> weave (prepend [c] ps) seps = c :: weave ps seps.
Proof. destruct ps as [|p ps]; [done|]. intros _. by destruct seps. Qed.

Lemma terminal_not_space (c : N) : is_terminal c = true -> isspace c = false.
Proof.
  unfold is_terminal.
  intros [[->%N.eqb_eq | ->%N.eqb_eq]%orb_true_iff | ->%N.eqb_eq]%orb_true_iff; reflexivity.
Qed.

(** The pieces, with the runs of whitespace removed between them, make up the
    text; [ws] is the rest of a run the scan is inside of. *)
Lemma split_go_weave (s : str) (a k : bool) :
  exists ws seps,
    s = ws ++ weave (split_go a k [] s) seps
    /\ Forall (fun c => isspace c = true) ws
    /\ (k = false -> ws = [])
    /\ length (split_go a k [] s) = S (length seps)
    /\ Forall (fun sp => sp <> [] /\ Forall (fun c => isspace c = true) sp) seps.
Proof.
  revert a k. induction s as [|c r IH]; intros a k.
  - by exists [], [].
  - rewrite split_go_cons. destruct (isspace c) eqn:Hc.
    + destruct k.
      * destruct (IH false true) as (ws & seps & Hr & Hws & _ & Hlen & Hseps).
        exists (c :: ws), seps. repeat split; try done.
        -- simpl. by f_equal.
        -- by constructor.
      * destruct a.
        -- destruct (IH false true) as (ws & seps & Hr & Hws & _ & Hlen & Hseps).
           exists [], ((c :: ws) :: seps). repeat split; try done.
           ++ simpl. by f_equal.
           ++ simpl. by f_equal.
           ++ constructor; [|done]. split; [done|by constructor].
        -- destruct (IH false false) as (ws & seps & Hr & _ & Hnil & Hlen & Hseps).
           rewrite (Hnil eq_refl) in Hr. simpl in Hr.
           exists [], seps. repeat split; try done.
           ++ simpl. rewrite weave_prepend by apply split_go_nonempty. by f_equal.
           ++ by destruct (split_go false false [] r).
    + destruct (IH (is_terminal c) false) as (ws & seps & Hr & _ & Hnil & Hlen & Hseps).
      rewrite (Hnil eq_refl) in Hr. simpl in Hr.
      exists [], seps. repeat split; try done.
      * simpl. rewrite weave_prepend by apply split_go_nonempty. by f_equal.
      * by destruct (split_go (is_terminal c) false [] r).
Qed.

End Split.

Section SplitPieces.

(** The pieces of the rest of the text, for the induction hypothesis [IH]
    at the scanner state [a], [k]: there is a first piece [p]. *)
Ltac first_piece IH a k r :=
  specialize (IH a k); destruct (split_go a k [] r) as [|p rest]; [done|].

Lemma ends_sentence_cons (c : N) (p : str) :
  p <> [] -> ends_sentence (c :: p) = ends_sentence p.
Proof. destruct p as [|d p]; [done|]. intros _. unfold ends_sentence. by rewrite last_cons_cons. Qed.

Lemma ends_sentence_nonempty (p : str) : ends_sentence p = true -> p <> [].
Proof. by destruct p. Qed.

Lemma all_but_last_lookup (P : str -> bool) (l : list str) (i : nat) (p : str) :
  all_but_last P l = true -> l !! i = Some p -> (S i < length l)%nat -> P p = true.
Proof.
  revert i. induction l as [|q l IH]; intros i Hall Hi Hlt; [done|].
  destruct l as [|q2 l]; [simpl in Hlt; lia|].
  change (all_but_last P (q :: q2 :: l)) with (P q && all_but_last P (q2 :: l)) in Hall.
  apply andb_true_iff in Hall as [Hq Hall].
  destruct i as [|i]; simpl in Hi.
  - by injection Hi as <-.
  - apply (IH i); [done|done|]. simpl in *. lia.
Qed.

(** Every piece that is followed by another one ends a sentence.  The first
    piece is judged together with what was read before it: [a] tells that
    this ended a sentence. *)
Lemma split_go_ends (s : str) (a k : bool) :
  match split_go a k [] s with
  | p :: rest =>
      all_but_last ends_sentence rest = true
      /\ (rest <> [] -> ends_sentence p = true \/ (p = [] /\ a = true /\ k = false))
  | [] => False
  end.
Proof.
  revert a k. induction s as [|c r IH]; intros a k; [done|].
  rewrite split_go_cons. destruct (isspace c) eqn:Hc.
  - destruct k.
    + first_piece IH false true r.
      destruct IH as [Hall Hp]. split; [done|].
      intros Hne. destruct (Hp Hne) as [?|(_ & ? & _)]; [by left|done].
    + destruct a.
      * first_piece IH false true r.
        destruct IH as [Hall Hp]. split; [|by right].
        destruct rest as [|q rest]; [done|].
        change (ends_sentence p && all_but_last ends_sentence (q :: rest) = true).
        rewrite Hall, andb_true_r.
        destruct Hp as [?|(_ & ? & _)]; done.
      * first_piece IH false false r.
        destruct IH as [Hall Hp]. split; [done|].
        intros Hne. left. destruct (Hp Hne) as [Hend|(_ & ? & _)]; [|done].
        simpl. by rewrite ends_sentence_cons by by apply ends_sentence_nonempty.
  - first_piece IH (is_terminal c) false r.
    destruct IH as [Hall Hp]. split; [done|].
    intros Hne. left. destruct (Hp Hne) as [Hend|(-> & Ht & _)].
    + simpl. by rewrite ends_sentence_cons by by apply ends_sentence_nonempty.
    + done.
Qed.

Lemma has_break_cons (c : N) (p : str) :
  has_break (c :: p) =
  match p with
  | c2 :: _ => (is_terminal c && isspace c2) || has_break p
  | [] => false
  end.
Proof. by destruct p. Qed.

(** No piece holds a place where the text should have been split. *)
Lemma split_go_no_break (s : str) (a k : bool) :
  match split_go a k [] s with
  | p :: rest =>
      has_break p = false
      /\ Forall (fun q => has_break q = false) rest
      /\ (a = true -> k = false -> forall c, head p = Some c -> isspace c = false)
  | [] => False
  end.
Proof.
  revert a k. induction s as [|c r IH]; intros a k; [done|].
  rewrite split_go_cons. destruct (isspace c) eqn:Hc.
  - destruct k.
    + first_piece IH false true r.
      destruct IH as (Hp & Hrest & _). done.
    + destruct a.
      * first_piece IH false true r.
        destruct IH as (Hp & Hrest & _). split; [done|]. split; [by constructor|done].
      * first_piece IH false false r.
        destruct IH as (Hp & Hrest & _). cbn [prepend app]. split; [|done].
        rewrite has_break_cons. destruct p as [|c2 p]; [done|].
        rewrite Hp, orb_false_r. apply andb_false_iff. left.
        destruct (is_terminal c) eqn:Ht; [|done].
        apply terminal_not_space in Ht. congruence.
  - first_piece IH (is_terminal c) false r.
    destruct IH as (Hp & Hrest & Hhead). cbn [prepend app]. split; [|split; [done|]].
    + rewrite has_break_cons. destruct p as [|c2 p]; [done|].
      rewrite Hp, orb_false_r. destruct (is_terminal c) eqn:Ht; [|done].
      simpl. by apply Hhead.
    + by intros _ _ c' [= <-].
Qed.

(** A piece that follows a separator does not begin with whitespace: the
    separator is the whole run. *)
Lemma split_go_maximal (s : str) (a k : bool) :
  match split_go a k [] s with
  | p :: rest =>
      Forall (fun q => forall c, head q = Some c -> isspace c = false) rest
      /\ (k = true -> forall c, head p = Some c -> isspace c = false)
  | [] => False
  end.
Proof.
  revert a k. induction s as [|c r IH]; intros a k; [done|].
  rewrite split_go_cons. destruct (isspace c) eqn:Hc.
  - destruct k.
    + specialize (IH false true). by destruct (split_go false true [] r).
    + destruct a.
      * first_piece IH false true r.
        destruct IH as [Hrest Hp]. split; [|done]. constructor; [by apply Hp|done].
      * first_piece IH false false r.
        destruct IH as [Hrest _]. done.
  - first_piece IH (is_terminal c) false r.
    destruct IH as [Hrest _]. split; [done|]. by intros _ c' [= <-].
Qed.

Lemma rstrip_length (s : str) : (length (rstrip s) <= length s)%nat.
Proof.
  destruct (rstrip_prefix s) as (ws & Hs & _).
  rewrite Hs at 2. rewrite length_app. lia.
Qed.

(** C5, as the program has it.  [re_split_sentences] cuts the text at every
    run of whitespace that follows a [.], [!] or [?]: the pieces and the runs
    between them make up the text, every piece but the last ends with one of
    these marks, no piece holds such a mark followed by whitespace, and no
    piece after the first begins with whitespace.  [summarize_naive] of the
    empty text is empty; otherwise it joins the first two pieces with a
    space, and returns that when it has at most 300 characters; when it has
    more, it returns the first 299 characters of it, wherever they end,
    without their trailing whitespace and followed by ["..."]. *)
Theorem summarize_naive_spec (text : str) :
  let sentences := re_split_sentences text in
  let joined := join (py " ") (take 2 sentences) in
  (exists seps,
      length sentences = S (length seps)
      /\ weave sentences seps = text
      /\ Forall (fun sp => sp <> [] /\ Forall (fun c => isspace c = true) sp) seps)
  /\ (forall i p, sentences !! i = Some p -> (S i < length sentences)%nat ->
                  ends_sentence p = true)
  /\ Forall (fun p => has_break p = false) sentences
  /\ (forall i p c, sentences !! S i = Some p -> head p = Some c -> isspace c = false)
  /\ (text = [] -> summarize_naive text 2 300 = [])
  /\ (text <> [] -> (length joined <= 300)%nat -> summarize_naive text 2 300 = joined)
  /\ (text <> [] -> (300 < length joined)%nat ->
      summarize_naive text 2 300 = rstrip (take 299 joined) ++ py "..."
      /\ (exists ws, take 299 joined = rstrip (take 299 joined) ++ ws
                     /\ Forall (fun c => isspace c = true) ws)
      /\ (forall c, last (rstrip (take 299 joined)) = Some c -> isspace c = false)
      /\ (length (summarize_naive text 2 300) <= 302)%nat).
Proof.
  cbv zeta. unfold re_split_sentences.
  split.
  { destruct (split_go_weave text false false) as (ws & seps & Ht & _ & Hnil & Hlen & Hseps).
    rewrite (Hnil eq_refl) in Ht. by exists seps. }
  split.
  { intros i p Hi Hlt.
    pose proof (split_go_ends text false false) as H.
    destruct (split_go false false [] text) as [|p0 rest]; [done|].
    destruct H as [Hall Hp0]. destruct i as [|i]; simpl in Hi.
    - injection Hi as <-. destruct Hp0 as [?|(_ & ? & _)]; [|done|done].
      intros ->. simpl in Hlt. lia.
    - apply (all_but_last_lookup _ rest i); [done|done|]. simpl in Hlt. lia. }
  split.
  { pose proof (split_go_no_break text false false) as H.
    destruct (split_go false false [] text) as [|p0 rest]; [done|].
    destruct H as (Hp0 & Hrest & _). by constructor. }
  split.
  { intros i p c Hi.
    pose proof (split_go_maximal text false false) as H.
    destruct (split_go false false [] text) as [|p0 rest]; [done|].
    destruct H as [Hrest _]. simpl in Hi.
    by apply (proj1 (Forall_lookup _ _) Hrest i p Hi). }
  split; [by intros ->|].
  set (joined := join (py " ") (take 2 (split_go false false [] text))).
  assert (Hsum : text <> [] ->
            summarize_naive text 2 300
            = if 300 <? Z.of_nat (length joined)
              then rstrip (take 299 joined) ++ py "..." else joined).
  { by destruct text. }
  split.
  { intros Hne Hlen. rewrite (Hsum Hne).
    destruct (Z.ltb_spec 300 (Z.of_nat (length joined))); [lia|done]. }
  intros Hne Hlen. rewrite (Hsum Hne).
  destruct (Z.ltb_spec 300 (Z.of_nat (length joined))); [|lia].
  split; [done|]. split; [apply rstrip_prefix|]. split; [apply rstrip_last|].
  rewrite length_app. pose proof (rstrip_length (take 299 joined)) as Hr.
  rewrite length_take in Hr. simpl. lia.
Qed.

End SplitPieces.

(** ** The program in the example world *)

Section Examples.

#[local] Existing Instance example_world.

(** The model of [datetime] on known values. *)
Example isoformat_examples :
  isoformat (mk_datetime (wall_of 2024 1 1 0 0 0 0) utc) = py "2024-01-01T00:00:00+00:00"
  /\ isoformat (mk_datetime (wall_of 2024 2 29 23 59 58 120) (Some (-5 * HOUR)))
     = py "2024-02-29T23:59:58.000120-05:00"
  /\ isoformat (mk_datetime (wall_of 987 6 5 4 3 2 0) None) = py "0987-06-05T04:03:02"
  /\ isoformat (mk_datetime MAX_WALL utc) = py "9999-12-31T23:59:59.999999+00:00"
  /\ ymd2ord 1970 1 1 = 719163
  /\ ord2ymd 719163 = (1970, 1, 1)
  /\ ord2ymd (ymd2ord 2000 2 29) = (2000, 2, 29)
  /\ ord2ymd (ymd2ord 1900 3 1) = (1900, 3, 1)
  /\ ord2ymd MAX_ORDINAL = (9999, 12, 31).
Proof. vm_compute. repeat split. Qed.

(** Literals are decoded from UTF-8, and strings compare by code point. *)
Example str_examples :
  py "– AI" = [8211; 32; 65; 73]%N
  /\ length (py "Маркетинг") = 9%nat
  /\ str_ltb (py "2024-01-01") (py "unknown") = true
  /\ str_ltb (py "") (py "2024-01-01") = true
  /\ re_split_sentences (py "One. Two!  Three? ") = [py "One."; py "Two!"; py "Three?"; []]
  /\ re_split_sentences (py " a .b") = [py " a .b"]
  /\ strip (re_sub_ws [32; 32; 97; 32; 9; 10; 160; 32; 98; 12288; 32]%N) = py "a b".
Proof. vm_compute. repeat split. Qed.

(** C1.  The run of [fetch_news(days=7, limit=7)] in the example world: the
    stale entry and the later copy are gone, and of the two items left the
    one dated ["unknown"] comes first, before the one with a parsed date:
    ["unknown"] is above every ISO date in the order of strings, and the sort
    is descending. *)
Example undated_item_comes_first :
  exists undated dated w',
    fetch_news (E := example_world) 7 7 false 0%nat = (Ok [undated; dated], w')
    /\ title undated = py "Undated story"
    /\ date undated = py "unknown"
    /\ title dated = py "Dated story"
    /\ date dated = py "2024-01-01T00:00:00+00:00"
    /\ summary dated = py "Sentence one. Sentence two."
    /\ str_ltb (date dated) (date undated) = true.
Proof. eexists _, _, _. vm_compute. repeat split. Qed.

(** C5, the cut.  A text of 290 letters, a space and 20 letters: the
    summary keeps the first 299 characters, so the second word is cut after
    its eighth letter, though cutting at the space was possible. *)
Example cut_falls_inside_a_word :
  let text := replicate 290 97%N ++ [32%N] ++ replicate 20 98%N in
  summarize_naive text 2 300 = replicate 290 97%N ++ [32%N] ++ replicate 8 98%N ++ py "..."
  /\ summarize_naive text 2 300 = take 299 text ++ py "..."
  /\ mid_word_cut text 299 = true
  /\ mid_word_cut text 290 = false.
Proof. vm_compute. repeat split. Qed.

(** Dates in the example world: an offset is converted, and an unknown
    string gives [None]. *)
Example parse_datetime_examples :
  parse_datetime (E := example_world) (py "2023-12-01T00:00:00+02:00")
  = Ok (Some (mk_datetime (wall_of 2023 11 30 22 0 0 0) utc))
  /\ parse_datetime (E := example_world) (py "2024-01-01T00:00:00")
     = Ok (Some (mk_datetime (wall_of 2024 1 1 0 0 0 0) utc))
  /\ parse_datetime (E := example_world) (py "yesterday") = Ok None
  /\ parse_datetime (E := example_world) [] = Ok None.
Proof. vm_compute. repeat split. Qed.

(** A window of ten million days reaches before year 1. *)
Example fetch_news_overflow :
  fetch_news (E := example_world) 10000000 7 false 0%nat = (Raise OverflowError, 0%nat).
Proof. vm_compute. reflexivity. Qed.

(** C7, a string that parses and gives no date, and a zone that is not
    converted.  The date parser reads
    ["9999-12-31T23:59:59-05:00"], but five hours later is past the last
    date [datetime] represents: [astimezone] raises and [parse_datetime]
    returns [None] for a string that parses.  And the date parser reads
    ["Mon, 01 Jan 2024 00:00:00 EST"] as a naive value, for it does not know
    the zone: [parse_datetime] returns midnight UTC, not 05:00 UTC, for a
    string that names its zone. *)
Example parsable_date_without_result :
  dtparser_parse (Externals := example_world) (py "9999-12-31T23:59:59-05:00")
  = Ok (mk_datetime (wall_of 9999 12 31 23 59 59 0) (Some (-5 * HOUR)))
  /\ parse_datetime (E := example_world) (py "9999-12-31T23:59:59-05:00") = Ok None
  /\ dtparser_parse (Externals := example_world) (py "Mon, 01 Jan 2024 00:00:00 EST")
     = Ok (mk_datetime (wall_of 2024 1 1 0 0 0 0) None)
  /\ parse_datetime (E := example_world) (py "Mon, 01 Jan 2024 00:00:00 EST")
     = Ok (Some (mk_datetime (wall_of 2024 1 1 0 0 0 0) utc))
  /\ isoformat (mk_datetime (wall_of 2024 1 1 0 0 0 0) utc) = py "2024-01-01T00:00:00+00:00".
Proof. vm_compute. repeat split. Qed.


(** [strip_html] on a paragraph: the text nodes are joined by spaces. *)
Example strip_html_examples :
  strip_html (E := example_world) (Some (py "<p>Hello,   <b>world</b>!</p>"))
  = Ok (py "Hello, world !")
  /\ strip_html (E := example_world) (Some [32; 32; 97; 9; 10; 98; 32]%N) = Ok (py "a b")
  /\ strip_html (E := example_world) (Some []) = Ok []
  /\ strip_html (E := example_world) None = Ok [].
Proof. vm_compute. repeat split. Qed.

(** The loop body on the entries of the example world: the stale entry is
    skipped, the other two are appended, the undated one as ["unknown"]. *)
Example process_entry_examples :
  process_entry (E := example_world) example_cutoff false (py "Маркетинг")
                (py "Marketing Dive") stale_entry [] 0%nat
  = (Ok [], 0%nat)
  /\ process_entry (E := example_world) example_cutoff false (py "Маркетинг")
                   (py "Marketing Dive") undated_entry [] 0%nat
     = (Ok [ mk_item (py "Undated story") (py "No date at all.") (py "unknown")
                     (py "Marketing Dive") (py "https://example.org/undated")
                     (py "Маркетинг") ], 0%nat)
  /\ process_entry (E := example_world) example_cutoff false (py "Маркетинг")
                   (py "Marketing Dive") dated_entry [] 0%nat
     = (Ok [ mk_item (py "Dated story") (py "Sentence one. Sentence two.")
                     (py "2024-01-01T00:00:00+00:00")
                     (py "Marketing Dive") (py "https://example.org/dated")
                     (py "Маркетинг") ], 0%nat).
Proof. vm_compute. repeat split. Qed.

(** Where a library raises, the run ends: on an entry, however old, whose
    description the HTML parser rejects, and on a feed that cannot be
    read. *)
Example fetch_news_raises_examples :
  process_entry (E := rejecting_world) example_cutoff false (py "Маркетинг")
                (py "Marketing Dive") rejected_entry [] 0%nat
  = (Raise ParserRejectedMarkup, 0%nat)
  /\ fetch_news (E := rejecting_world) 7 7 false 0%nat = (Raise ParserRejectedMarkup, 1%nat)
  /\ fetch_news (E := unreadable_world) 7 7 false 0%nat = (Raise UnicodeEncodeError, 2%nat).
Proof. vm_compute. repeat split. Qed.

(** The filter on the stale entry of the example world. *)
Lemma recency_filter_witness :
  (forall w0 days, cutoff_of (E := example_world) w0 days = Ok example_cutoff ->
                   instant example_cutoff = clock w0 - days * US_PER_DAY)
  /\ exists dt,
    parse_datetime (E := example_world)
      (py_or (default [] (entry_published stale_entry))
             (default [] (entry_updated stale_entry))) = Ok dt
    /\ ((exists d, dt = Some d /\ instant d < instant example_cutoff) ->
          process_entry (E := example_world) example_cutoff false (py "Маркетинг")
                        (py "Marketing Dive") stale_entry [] 0%nat
          = (Ok [], 0%nat))
    /\ (~ (exists d, dt = Some d /\ instant d < instant example_cutoff) ->
          exists summary w',
            (Ok (summarize_naive (py "Old.") 2 300), 0%nat) = (Ok summary, w')
            /\ process_entry (E := example_world) example_cutoff false (py "Маркетинг")
                             (py "Marketing Dive") stale_entry [] 0%nat
               = (Ok ([] ++ [ mk_item (py "Stale story") summary
                                     (match dt with
                                      | Some d => isoformat d
                                      | None => py "unknown"
                                      end)
                                     (py "Marketing Dive")
                                     (default [] (entry_link stale_entry))
                                     (py "Маркетинг") ]), w'))
    /\ (dt = None -> ~ (exists d, dt = Some d /\ instant d < instant example_cutoff)).
Proof.
  apply (recency_filter (E := example_world) example_cutoff false (py "Маркетинг")
                        (py "Marketing Dive") stale_entry [] 0%nat
                        (py "Stale story") (py "Old."));
    vm_compute; reflexivity.
Defined.

(** The run of the example world, where the later copy loses. *)
Lemma first_of_each_pair_wins_witness :
  exists news w',
    fetch_news (E := example_world) 7 7 false 0%nat = (Ok news, w')
    /\ exists cutoff all_news,
         cutoff_of (E := example_world) 0%nat 7 = Ok cutoff
         /\ collect (E := example_world) FEEDS cutoff false 0%nat = (Ok all_news, w')
         /\ forall t s,
              (length (List.filter (same_pair t s) news) <= 1)%nat
              /\ forall x, x ∈ news -> same_pair t s x = true ->
                           List.find (same_pair t s) all_news = Some x.
Proof.
  eexists _, _. split; [vm_compute; reflexivity|].
  eapply (first_of_each_pair_wins (E := example_world) 7 7 false 0%nat).
  vm_compute. reflexivity.
Defined.

(** The run of the example world with [limit = 1]. *)
Lemma result_within_limit_witness :
  exists news w',
    fetch_news (E := example_world) 7 1 false 0%nat = (Ok news, w')
    /\ Z.of_nat (length news) <= 1
    /\ (1 = 0 -> news = []).
Proof.
  eexists _, _. split; [vm_compute; reflexivity|].
  eapply (result_within_limit (E := example_world) 7 1 false 0%nat).
  - vm_compute. reflexivity.
  - lia.
Defined.

(** The run of the example world with [limit = -1]: two items survive
    deduplication and the last of them is dropped. *)
Lemma negative_limit_drops_last_witness :
  exists all_news news w',
    collect (E := example_world) FEEDS example_cutoff false 0%nat = (Ok all_news, w')
    /\ Z.of_nat (length (dedup (E := example_world) all_news ∅ [])) > Z.abs (-1)
    /\ fetch_news (E := example_world) 7 (-1) false 0%nat = (Ok news, w')
    /\ (let unique := dedup (E := example_world) all_news ∅ [] in
        let n := Z.of_nat (length unique) in
        news = take (Z.to_nat (n - Z.abs (-1))) (sort_reverse date unique)
        /\ Z.of_nat (length news) = n - Z.abs (-1)
        /\ news <> [])
    /\ forall limit', exists news',
         fetch_news (E := example_world) 7 limit' false 0%nat = (Ok news', w').
Proof.
  eexists _, _, _. split; [vm_compute; reflexivity|].
  split; [vm_compute; reflexivity|].
  split; [vm_compute; reflexivity|].
  eapply (negative_limit_drops_last (E := example_world) 7 (-1) false 0%nat example_cutoff).
  - vm_compute. reflexivity.
  - vm_compute. reflexivity.
  - lia.
  - vm_compute. reflexivity.
  - vm_compute. reflexivity.
Defined.

(** The run of the example world with g4f enabled: its service refuses
    every request. *)
Lemma summarize_with_g4f_falls_back_witness :
  (forall w0 t, service_fails (E := example_world) w0 t)
  /\ exists news w',
       fetch_news (E := example_world) 7 7 true 0%nat = (Ok news, w')
       /\ Forall (naive_item_of_feed (E := example_world) FEEDS) news.
Proof.
  assert (Hfail : forall w0 t, service_fails (E := example_world) w0 t).
  { intros w0 t. right. by exists tt, (S w0), ServiceError, (S (S w0)). }
  split; [exact Hfail|].
  eexists _, _. split; [vm_compute; reflexivity|].
  destruct (summarize_with_g4f_falls_back (E := example_world) [] 0%nat 7 7)
    as (_ & _ & _ & Hence).
  eapply (Hence Hfail).
  vm_compute. reflexivity.
Defined.

End Examples.
(** * Further properties *)

(** ** Where [fetch_news] begins *)

Section Window.
Context {E : Externals}.

Lemma cutoff_of_window (w : World) (days : Z) :
  (window_ok w days ->
   cutoff_of w days = Ok (mk_datetime (clock w - days * US_PER_DAY) utc))
  /\ (~ window_ok w days -> cutoff_of w days = Raise OverflowError).
Proof.
  unfold window_ok, cutoff_of, sub_days, in_range, now_utc. simpl.
  destruct (Z.leb_spec (Z.abs days) MAX_DELTA_DAYS),
           (Z.leb_spec 0 (clock w - days * US_PER_DAY)),
           (Z.leb_spec (clock w - days * US_PER_DAY) MAX_WALL);
    simpl; split; intros Hw; try done; try lia; exfalso; apply Hw; lia.
Qed.


End Window.

(** ** What every item of the result is *)

Section Items.
Context {E : Externals}.

(** A round of the loop body that ends well has appended nothing, or one
    item built from the entry. *)
Lemma process_entry_ok cutoff use_g4f category source_name entry all_news w news w' :
  process_entry cutoff use_g4f category source_name entry all_news w = (Ok news, w') ->
  news = all_news
  \/ exists title desc dt summary,
       strip_html (Some (default [] (entry_title entry))) = Ok title
       /\ is_empty title = false
       /\ strip_html (Some (py_or (default [] (entry_summary entry))
                                  (default [] (entry_description entry)))) = Ok desc
       /\ parse_datetime (py_or (default [] (entry_published entry))
                                (default [] (entry_updated entry))) = Ok dt
       /\ too_old dt cutoff = false
       /\ (use_g4f = false -> summary = summarize_naive desc 2 300)
       /\ news = all_news ++ [ mk_item title summary (date_field dt) source_name
                                       (default [] (entry_link entry)) category ].
Proof.
  pose proof (process_entry_cases cutoff use_g4f category source_name entry all_news w) as Hc.
  destruct (strip_html (Some (default [] (entry_title entry)))) as [title|e];
    [|rewrite Hc; discriminate].
  destruct (is_empty title) eqn:Hne; [rewrite Hc; intros [= <- _]; by left|].
  destruct (strip_html (Some (py_or _ _))) as [desc|e]; [|rewrite Hc; discriminate].
  destruct Hc as (dt & Hdt & Hc).
  destruct (too_old dt cutoff) eqn:Hold; [rewrite Hc; intros [= <- _]; by left|].
  destruct Hc as (sm & w1 & Hsm & ->). intros [= <- _]. right.
  exists title, desc, dt, sm. repeat split; try done.
  intros ->. by injection Hsm as <- _.
Qed.

(** The loops only ever append items built from entries of the feeds they
    read. *)
Lemma collect_built_from feeds cutoff use_g4f w all_news w' :
  collect feeds cutoff use_g4f w = (Ok all_news, w') ->
  Forall (built_from feeds cutoff use_g4f) all_news.
Proof.
  apply (collect_ok (Forall (built_from feeds cutoff use_g4f))); [by apply Forall_nil|].
  intros category fs source_name url w0 entries w1 entry l w2 l' w3
    Hcat Hsrc Hfeed Hin Hl Hstep.
  apply process_entry_ok in Hstep
    as [->|(title & desc & dt & sm & Ht & Hne & Hd & Hdt & Hold & Hsm & ->)]; [done|].
  apply Forall_app. split; [done|]. apply Forall_singleton.
  exists fs, url, w0, entries, w1, entry, desc, dt. simpl. by repeat split.
Qed.

Lemma fetch_news_built_from days limit use_g4f w news w' :
  fetch_news days limit use_g4f w = (Ok news, w') ->
  exists cutoff,
    cutoff_of w days = Ok cutoff
    /\ Forall (built_from FEEDS cutoff use_g4f) news.
Proof.
  intros (cutoff & all_news & Hcut & Hcol & ->)%fetch_news_ok.
  exists cutoff. split; [done|].
  apply collect_built_from in Hcol.
  apply Forall_forall. intros n Hn%dedup_sort_limit_elem.
  by apply (proj1 (Forall_forall _ _) Hcol).
Qed.

(** X2.  Every item [fetch_news] returns has a title that is not empty, does
    not begin or end with whitespace and holds no whitespace but single
    spaces, and its source and category are a source of [FEEDS] and the
    category it is listed under. *)
Theorem items_are_well_formed (days limit : Z) (use_g4f : bool) (w : World)
    (news : list DigestItem) (w' : World) :
  fetch_news days limit use_g4f w = (Ok news, w') ->
  Forall (fun n =>
    title n <> []
    /\ (forall c, head (title n) = Some c -> isspace c = false)
    /\ (forall c, last (title n) = Some c -> isspace c = false)
    /\ (forall c, c ∈ title n -> isspace c = true -> c = 32%N)
    /\ single_spaced (title n) = true
    /\ exists fs url, (category n, fs) ∈ FEEDS /\ (source n, url) ∈ fs) news.
Proof.
  intros (cutoff & _ & Hall)%fetch_news_built_from.
  eapply Forall_impl; [exact Hall|].
  intros n (fs & url & w0 & entries & w1 & entry & desc & dt
            & Hcat & Hsrc & _ & _ & Ht & Hne & _).
  destruct (strip_html_normal_form _ _ Ht) as (Hhead & Hlast & Hsp & Hsingle).
  split; [by destruct (title n)|]. repeat (split; [done|]). by exists fs, url.
Qed.


End Items.

(** ** The deduplication loop, the sort and the slice *)

Section Stages.
Context {E : Externals}.

Lemma dedup_sublist (all_news : list DigestItem) (seen : gset str) :
  sublist (dedup all_news seen []) all_news.
Proof.
  revert seen. induction all_news as [|n rest IH]; intros seen.
  - constructor.
  - rewrite dedup_cons. destruct (decide (fingerprint n ∈ seen)).
    + by apply sublist_cons.
    + by apply sublist_skip.
Qed.

Lemma dedup_complete (all_news : list DigestItem) (seen : gset str) (x : DigestItem) :
  x ∈ all_news ->
  fingerprint x ∈ seen
  \/ exists y, y ∈ dedup all_news seen [] /\ fingerprint y = fingerprint x.
Proof.
  revert seen. induction all_news as [|n rest IH]; intros seen.
  - by intros ?%elem_of_nil.
  - rewrite dedup_cons. intros [->|Hx]%elem_of_cons.
    + destruct (decide (fingerprint n ∈ seen)); [by left|].
      right. exists n. split; [apply elem_of_cons; by left|done].
    + destruct (decide (fingerprint n ∈ seen)); [by apply IH|].
      destruct (IH ({[fingerprint n]} ∪ seen) Hx) as [Hin|(y & Hy & Hfy)].
      * apply elem_of_union in Hin as [->%elem_of_singleton|Hin]; [|by left].
        right. exists n. split; [apply elem_of_cons; by left|done].
      * right. exists y. split; [apply elem_of_cons; by right|done].
Qed.

Lemma dedup_again (all_news : list DigestItem) (seen seen' : gset str) :
  seen' ⊆ seen ->
  dedup (dedup all_news seen []) seen' [] = dedup all_news seen [].
Proof.
  revert seen seen'. induction all_news as [|n rest IH]; intros seen seen' Hsub; [done|].
  rewrite dedup_cons. destruct (decide (fingerprint n ∈ seen)) as [Hin|Hout]; [by apply IH|].
  rewrite dedup_cons. destruct (decide (fingerprint n ∈ seen')) as [Hin'|_].
  { exfalso. apply Hout. by apply Hsub. }
  f_equal. apply IH. intros k [Hk|Hk]%elem_of_union; apply elem_of_union; [by left|].
  right. by apply Hsub.
Qed.

(** X4.  The deduplication loop keeps the items in the order they were
    collected, keeps one item for every fingerprint that occurs, keeps no
    fingerprint twice, and changes nothing when run on its own result. *)
Theorem dedup_keeps_one_of_each (all_news : list DigestItem) :
  sublist (dedup all_news ∅ []) all_news
  /\ (forall x, x ∈ all_news ->
        exists y, y ∈ dedup all_news ∅ [] /\ fingerprint y = fingerprint x)
  /\ NoDup (List.map fingerprint (dedup all_news ∅ []))
  /\ dedup (dedup all_news ∅ []) ∅ [] = dedup all_news ∅ [].
Proof.
  split; [apply dedup_sublist|]. split; [|split; [apply dedup_NoDup|by apply dedup_again]].
  intros x Hx. destruct (dedup_complete all_news ∅ x Hx) as [Hin|?]; [|done].
  by apply not_elem_of_empty in Hin.
Qed.

(** X5.  The sort of line 133 loses and adds nothing, orders the items by
    descending date string, and is stable: the items of one date string are
    in the order they had before. *)
Theorem sort_is_stable (unique : list DigestItem) :
  sort_reverse date unique ≡ₚ unique
  /\ StronglySorted (key_ge date) (sort_reverse date unique)
  /\ forall k, List.filter (fun n => bool_decide (date n = k)) (sort_reverse date unique)
               = List.filter (fun n => bool_decide (date n = k)) unique.
Proof.
  split; [apply sort_reverse_perm|]. split; [apply sort_reverse_sorted|].
  intros k. apply sort_reverse_stable.
Qed.

(** X6.  What [fetch_news] returns is always a beginning of the sorted
    list; a limit of at least its length returns all of it, and a negative
    limit of at least its length in size returns nothing. *)
Theorem limit_beyond_the_length (days limit : Z) (use_g4f : bool) (w : World)
    (news : list DigestItem) (w' : World) :
  fetch_news days limit use_g4f w = (Ok news, w') ->
  exists cutoff all_news,
    cutoff_of w days = Ok cutoff
    /\ collect FEEDS cutoff use_g4f w = (Ok all_news, w')
    /\ let sorted := sort_reverse date (dedup all_news ∅ []) in
       (exists rest, sorted = news ++ rest)
       /\ (Z.of_nat (length sorted) <= limit -> news = sorted)
       /\ (limit <= - Z.of_nat (length sorted) -> news = []).
Proof.
  intros (cutoff & all_news & Hcut & Hcol & ->)%fetch_news_ok.
  exists cutoff, all_news.
  split; [done|]. split; [done|]. cbv zeta. unfold dedup_sort_limit.
  set (sorted := sort_reverse date (dedup all_news ∅ [])).
  split; [|split].
  - destruct (slice_to_take sorted limit) as [k ->].
    exists (drop k sorted). by rewrite take_drop.
  - intros Hl. unfold slice_to. destruct (Z.leb_spec 0 limit); [|lia].
    apply take_ge. lia.
  - intros Hl. unfold slice_to. destruct (Z.leb_spec 0 limit).
    + replace limit with 0 by lia. done.
    + replace (Z.to_nat (Z.of_nat (length sorted) + limit)) with 0%nat by lia. done.
Qed.

End Stages.

(** ** More on the naive summarizer *)

Section Naive.

(** A text with no sentence end inside is one piece. *)
Lemma split_go_one_piece (s : str) (a : bool) :
  has_break s = false ->
  (a = true -> forall c, head s = Some c -> isspace c = false) ->
  split_go a false [] s = [s].
Proof.
  revert a. induction s as [|c r IH]; intros a Hb Ha; [done|].
  rewrite split_go_cons. rewrite has_break_cons in Hb.
  assert (Hr : has_break r = false /\
               (is_terminal c = true -> forall c2, head r = Some c2 -> isspace c2 = false)).
  { destruct r as [|c2 r]; [done|].
    apply orb_false_iff in Hb as [Hb1 Hb2]. split; [done|].
    intros Ht c' [= <-]. by rewrite Ht in Hb1. }
  destruct Hr as [Hr Hnext].
  destruct (isspace c) eqn:Hc.
  - destruct a.
    + by rewrite (Ha eq_refl c) in Hc.
    + by rewrite (IH false).
  - by rewrite (IH (is_terminal c)).
Qed.

(** X7.  A text that has no [.], [!] or [?] followed by whitespace and is
    not longer than [max_chars] is its own summary, whenever at least one
    sentence is asked for. *)
Theorem one_short_sentence_is_kept (text : str) (max_sentences max_chars : Z) :
  has_break text = false ->
  1 <= max_sentences ->
  Z.of_nat (length text) <= max_chars ->
  summarize_naive text max_sentences max_chars = text.
Proof.
  intros Hb Hs Hc. unfold summarize_naive, re_split_sentences.
  destruct text as [|c r]; [done|]. cbn [is_empty].
  rewrite split_go_one_piece by done.
  assert (Hslice : slice_to [c :: r] max_sentences = [c :: r]).
  { unfold slice_to. destruct (Z.leb_spec 0 max_sentences); [|lia].
    apply take_ge. simpl. lia. }
  rewrite Hslice. cbn [join].
  destruct (Z.ltb_spec max_chars (Z.of_nat (length (c :: r)))); [lia|done].
Qed.

Lemma weave_elem (ps seps : list str) (p : str) (c : N) :
  length ps = S (length seps) -> p ∈ ps -> c ∈ p -> c ∈ weave ps seps.
Proof.
  revert seps. induction ps as [|q ps IH]; intros seps Hlen Hp Hc; [by apply elem_of_nil in Hp|].
  destruct seps as [|sp seps]; simpl in *.
  - destruct ps; [|done]. apply elem_of_cons in Hp as [->|Hp]; [done|].
    by apply elem_of_nil in Hp.
  - apply elem_of_cons in Hp as [->|Hp].
    + apply elem_of_app. by left.
    + apply elem_of_app. right. apply elem_of_app. right. apply IH; [lia|done|done].
Qed.

Lemma split_pieces_elem (text p : str) (c : N) :
  p ∈ re_split_sentences text -> c ∈ p -> c ∈ text.
Proof.
  unfold re_split_sentences. intros Hp Hc.
  destruct (split_go_weave text false false) as (ws & seps & Ht & _ & Hnil & Hlen & _).
  rewrite (Hnil eq_refl) in Ht. rewrite Ht. simpl. by eapply weave_elem.
Qed.

Lemma join_elem (sep : str) (ps : list str) (c : N) :
  c ∈ join sep ps -> c ∈ sep \/ exists p, p ∈ ps /\ c ∈ p.
Proof.
  induction ps as [|p ps IH]; [by intros ?%elem_of_nil|].
  destruct ps as [|q ps].
  - simpl. intros Hc. right. exists p. split; [apply elem_of_cons; by left|done].
  - change (join sep (p :: q :: ps)) with (p ++ sep ++ join sep (q :: ps)).
    intros [Hc|[Hc|Hc]%elem_of_app]%elem_of_app.
    + right. exists p. split; [apply elem_of_cons; by left|done].
    + by left.
    + destruct (IH Hc) as [?|(p' & Hp' & Hc')]; [by left|].
      right. exists p'. split; [apply elem_of_cons; by right|done].
Qed.

Lemma rstrip_elem (s : str) (c : N) : c ∈ rstrip s -> c ∈ s.
Proof.
  intros Hc. destruct (rstrip_prefix s) as (ws & Hs & _). rewrite Hs.
  apply elem_of_app. by left.
Qed.

(** The summary is made of characters of the text, spaces and dots. *)
Lemma summarize_naive_elem (text : str) (max_sentences max_chars : Z) (c : N) :
  c ∈ summarize_naive text max_sentences max_chars ->
  c ∈ text \/ c = 32%N \/ c = 46%N.
Proof.
  unfold summarize_naive. destruct (is_empty text); [by intros ?%elem_of_nil|].
  assert (Hjoin : forall c', c' ∈ join (py " ") (slice_to (re_split_sentences text) max_sentences)
                    -> c' ∈ text \/ c' = 32%N).
  { intros c' [Hsp|(p & Hp & Hc')]%join_elem.
    - right. by apply list_elem_of_singleton in Hsp.
    - left. apply slice_to_elem in Hp. by eapply split_pieces_elem. }
  destruct (_ <? _).
  - intros [Hc|Hc]%elem_of_app.
    + apply rstrip_elem, slice_to_elem, Hjoin in Hc. tauto.
    + right. right. change (py "...") with [46; 46; 46]%N in Hc.
      repeat (apply elem_of_cons in Hc as [->|Hc]; [done|]). by apply elem_of_nil in Hc.
  - intros Hc%Hjoin. tauto.
Qed.

(** The summary is at most two characters longer than [max_chars]. *)
Lemma summarize_naive_length (text : str) (max_sentences max_chars : Z) :
  1 <= max_chars ->
  Z.of_nat (length (summarize_naive text max_sentences max_chars)) <= max_chars + 2.
Proof.
  intros Hm. unfold summarize_naive. destruct (is_empty text); [simpl; lia|].
  set (joined := join (py " ") (slice_to (re_split_sentences text) max_sentences)).
  destruct (Z.ltb_spec max_chars (Z.of_nat (length joined))); [|lia].
  rewrite length_app. pose proof (rstrip_length (slice_to joined (max_chars - 1))) as Hr.
  unfold slice_to in *. destruct (Z.leb_spec 0 (max_chars - 1)); [|lia].
  rewrite length_take in Hr. change (length (py "...")) with 3%nat. lia.
Qed.

End Naive.

Section NaiveItems.
Context {E : Externals}.

(** X8.  Without g4f every summary [fetch_news] returns has at most 302
    characters (two more than the cap of 300), and holds no whitespace
    character but the plain space: no line break, no tab. *)
Theorem naive_summaries_are_one_line (days limit : Z) (w : World)
    (news : list DigestItem) (w' : World) :
  fetch_news days limit false w = (Ok news, w') ->
  Forall (fun n =>
    (length (summary n) <= 302)%nat
    /\ forall c, c ∈ summary n -> isspace c = true -> c = 32%N) news.
Proof.
  intros (cutoff & _ & Hall)%fetch_news_built_from.
  eapply Forall_impl; [exact Hall|].
  intros n (fs & url & w0 & entries & w1 & entry & desc & dt
            & _ & _ & _ & _ & _ & _ & Hd & _ & _ & _ & _ & Hsum).
  rewrite (Hsum eq_refl). split.
  - pose proof (summarize_naive_length desc 2 300 ltac:(lia)). lia.
  - intros c [Hc|[->| ->]]%summarize_naive_elem Hsp; [|done|done].
    destruct (strip_html_normal_form _ _ Hd) as (_ & _ & Hws & _).
    by apply Hws.
Qed.

End NaiveItems.

(** ** ISO dates sort by time *)

Section Calendar.

(** In the 400-year cycle the date of a day is that of the day of the first
    cycle, 400 years per cycle later. *)
Lemma ord2ymd_cycle (q r : Z) :
  0 <= r < 146097 ->
  ord2ymd (146097 * q + r + 1)
  = let '(y, m, d) := ord2ymd (r + 1) in (400 * q + y, m, d).
Proof.
  intros Hr. unfold ord2ymd.
  replace (146097 * q + r + 1 - 1) with (r + q * 146097) by lia.
  replace (r + 1 - 1) with r by lia.
  rewrite Z.div_add, Z.mod_add by lia.
  rewrite (Z.div_small r 146097), (Z.mod_small r 146097) by lia.
  cbv zeta.
  destruct ((r mod 36524 mod 1461 / 365 =? 4) || (r / 36524 =? 4)); [f_equal; f_equal; lia|].
  destruct (_ <? _); f_equal; f_equal; lia.
Qed.

Lemma cycle_ok_spec (fuel : nat) (i prev r : Z) :
  cycle_ok fuel i prev = true ->
  i <= r < i + Z.of_nat fuel ->
  fields_ok r = true
  /\ (if decide (r = i) then prev else date_key (r - 1)) < date_key r.
Proof.
  revert i prev. induction fuel as [|fuel IH]; intros i prev; [simpl; lia|].
  cbn [cycle_ok]. unfold fields_ok, date_key in *.
  destruct (ord2ymd i) as [[y m] d] eqn:Hi. cbv zeta.
  intros [[Hf Hk%Z.ltb_lt]%andb_true_iff Hrest]%andb_true_iff Hr.
  destruct (decide (r = i)) as [->|Hne]; [by rewrite Hi|].
  destruct (IH (i + 1) _ Hrest ltac:(lia)) as [Hfr Hkr].
  split; [done|].
  destruct (decide (r = i + 1)) as [->|_]; [|done].
  replace (i + 1 - 1) with i by lia. by rewrite Hi.
Qed.

(** Every day of the first cycle, by evaluation. *)
Lemma cycle_checked : cycle_ok (Z.to_nat 146097) 1 0 = true.
Proof. vm_compute. reflexivity. Qed.

Lemma cycle_day (r : Z) :
  1 <= r <= 146097 ->
  fields_ok r = true /\ (1 < r -> date_key (r - 1) < date_key r).
Proof.
  intros Hr.
  destruct (cycle_ok_spec (Z.to_nat 146097) 1 0 r cycle_checked ltac:(lia)) as [Hf Hk].
  split; [done|]. intros H1. by destruct (decide (r = 1)); [lia|].
Qed.

Lemma ord2ymd_fields (n : Z) :
  1 <= n ->
  let q := (n - 1) / 146097 in
  let '(y, m, d) := ord2ymd n in
  400 * q + 1 <= y <= 400 * q + 400 /\ 1 <= m <= 12 /\ 1 <= d <= 31.
Proof.
  intros Hn. cbv zeta.
  assert (Hr : 0 <= (n - 1) mod 146097 < 146097) by (apply Z.mod_pos_bound; lia).
  pose proof (ord2ymd_cycle ((n - 1) / 146097) ((n - 1) mod 146097) Hr) as Hc.
  replace (146097 * ((n - 1) / 146097) + (n - 1) mod 146097 + 1) with n in Hc
    by (pose proof (Z.div_mod (n - 1) 146097); lia).
  rewrite Hc.
  destruct (cycle_day ((n - 1) mod 146097 + 1) ltac:(lia)) as [Hf _].
  unfold fields_ok in Hf. destruct (ord2ymd ((n - 1) mod 146097 + 1)) as [[y m] d].
  repeat (apply andb_true_iff in Hf as [Hf ?]). lia.
Qed.

Lemma date_key_cycle (q r : Z) :
  1 <= r <= 146097 -> date_key (146097 * q + r) = 4000000 * q + date_key r.
Proof.
  intros Hr. unfold date_key.
  replace (146097 * q + r) with (146097 * q + (r - 1) + 1) by lia.
  rewrite ord2ymd_cycle by lia. replace (r - 1 + 1) with r by lia.
  destruct (ord2ymd r) as [[y m] d]. lia.
Qed.

Lemma date_key_step (n : Z) : 1 <= n -> date_key n < date_key (n + 1).
Proof.
  intros Hn.
  assert (Hr : 0 <= (n - 1) mod 146097 < 146097) by (apply Z.mod_pos_bound; lia).
  pose proof (Z.div_mod (n - 1) 146097 ltac:(lia)) as Hdm.
  set (q := (n - 1) / 146097) in *. set (r := (n - 1) mod 146097) in *.
  replace n with (146097 * q + (r + 1)) by lia.
  destruct (decide (r = 146096)) as [Hlast|Hmid].
  - replace (146097 * q + (r + 1) + 1) with (146097 * (q + 1) + 1) by lia.
    rewrite !date_key_cycle by lia. rewrite Hlast.
    change (date_key (146096 + 1)) with 4001231. change (date_key 1) with 10101. lia.
  - replace (146097 * q + (r + 1) + 1) with (146097 * q + (r + 2)) by lia.
    rewrite !date_key_cycle by lia.
    destruct (cycle_day (r + 2) ltac:(lia)) as [_ Hk].
    replace (r + 2 - 1) with (r + 1) in Hk by lia. specialize (Hk ltac:(lia)). lia.
Qed.

(** Later days have greater keys. *)
Lemma date_key_mono (a b : Z) : 1 <= a < b -> date_key a < date_key b.
Proof.
  intros [Ha Hab].
  replace b with (a + 1 + Z.of_nat (Z.to_nat (b - a - 1))) by lia.
  induction (Z.to_nat (b - a - 1)) as [|k IH].
  - replace (a + 1 + Z.of_nat 0) with (a + 1) by lia. by apply date_key_step.
  - etransitivity; [exact IH|].
    replace (a + 1 + Z.of_nat (S k)) with (a + 1 + Z.of_nat k + 1) by lia.
    apply date_key_step. lia.
Qed.

Lemma date_key_compare (a b : Z) :
  1 <= a -> 1 <= b -> (date_key a ?= date_key b) = (a ?= b).
Proof.
  intros Ha Hb. destruct (Z.compare_spec a b) as [->|Hlt|Hgt].
  - apply Z.compare_refl.
  - apply Z.compare_lt_iff, date_key_mono. lia.
  - apply Z.compare_gt_iff, date_key_mono. lia.
Qed.

(** Up to the last day [datetime] represents the year has four digits. *)
Lemma ord2ymd_year (n : Z) :
  1 <= n <= MAX_ORDINAL ->
  let '(y, m, d) := ord2ymd n in 1 <= y <= 9999 /\ 1 <= m <= 12 /\ 1 <= d <= 31.
Proof.
  intros Hn. pose proof (ord2ymd_fields n ltac:(lia)) as Hf. cbv zeta in Hf.
  assert (Hk : date_key n <= date_key MAX_ORDINAL).
  { destruct (decide (n = MAX_ORDINAL)) as [->|Hne]; [done|].
    apply Z.lt_le_incl, date_key_mono. lia. }
  change (date_key MAX_ORDINAL) with 99991231 in Hk. unfold date_key in Hk.
  assert (0 <= (n - 1) / 146097) by (apply Z.div_pos; lia).
  destruct (ord2ymd n) as [[y m] d]. lia.
Qed.

End Calendar.

Section FixedWidth.

Lemma str_ltb_cmp (a b : str) :
  str_ltb a b = match str_cmp a b with Lt => true | _ => false end.
Proof.
  revert b. induction a as [|x a IH]; intros [|y b]; simpl; try done.
  rewrite !N.ltb_compare, (N.compare_antisym x y).
  destruct (x ?= y)%N; simpl; [apply IH|done|done].
Qed.

Lemma str_cmp_refl (a : str) : str_cmp a a = Eq.
Proof. induction a as [|x a IH]; simpl; [done|]. by rewrite N.compare_refl. Qed.

(** Strings that begin with parts of one length compare by these parts
    first. *)
Lemma str_cmp_app (p q r r' : str) :
  length p = length q ->
  str_cmp (p ++ r) (q ++ r') = match str_cmp p q with Eq => str_cmp r r' | c => c end.
Proof.
  revert q. induction p as [|x p IH]; intros [|y q] Hlen; simpl in *; try done.
  destruct (x ?= y)%N; [|done|done]. apply IH. lia.
Qed.

Lemma digit_cmp (a b : Z) : (digit a ?= digit b)%N = (a mod 10 ?= b mod 10).
Proof.
  unfold digit.
  pose proof (Z.mod_pos_bound a 10 ltac:(lia)). pose proof (Z.mod_pos_bound b 10 ltac:(lia)).
  rewrite Z2N.inj_compare by lia. apply Z.add_compare_mono_l.
Qed.

Lemma digits_length (k : nat) (n : Z) : length (digits k n) = k.
Proof.
  revert n. induction k as [|k IH]; intros n; simpl; [done|].
  rewrite length_app, IH. simpl. lia.
Qed.

(** Numbers written with one number of digits compare as their digits. *)
Lemma digits_cmp (k : nat) (a b : Z) :
  0 <= a < 10 ^ Z.of_nat k -> 0 <= b < 10 ^ Z.of_nat k ->
  str_cmp (digits k a) (digits k b) = (a ?= b).
Proof.
  revert a b. induction k as [|k IH]; intros a b Ha Hb.
  - simpl in *. replace a with 0 by lia. by replace b with 0 by lia.
  - rewrite Nat2Z.inj_succ, Z.pow_succ_r in Ha, Hb by lia.
    cbn [digits]. rewrite str_cmp_app by (by rewrite !digits_length).
    rewrite IH by (split; [apply Z.div_pos; lia | apply Z.div_lt_upper_bound; lia]).
    simpl. rewrite digit_cmp.
    pose proof (Z.div_mod a 10 ltac:(lia)). pose proof (Z.div_mod b 10 ltac:(lia)).
    pose proof (Z.mod_pos_bound a 10 ltac:(lia)). pose proof (Z.mod_pos_bound b 10 ltac:(lia)).
    destruct (Z.compare_spec (a / 10) (b / 10)), (Z.compare_spec (a mod 10) (b mod 10)),
      (Z.compare_spec a b); try done; lia.
Qed.

Lemma pad2_digits (n : Z) : pad2 n = digits 2 n.
Proof. reflexivity. Qed.

Lemma pad4_digits (n : Z) : pad4 n = digits 4 n.
Proof. unfold pad4. simpl. by rewrite !Z.div_div by lia. Qed.

Lemma pad6_digits (n : Z) : pad6 n = digits 6 n.
Proof. unfold pad6. simpl. by rewrite !Z.div_div by lia. Qed.

End FixedWidth.

Section IsoOrder.

Lemma str_cmp_cons (x : N) (r r' : str) : str_cmp (x :: r) (x :: r') = str_cmp r r'.
Proof. simpl. by rewrite N.compare_refl. Qed.

(** The end of an ISO date in UTC: the microseconds, when there are any, and
    the offset. *)
Lemma iso_tail_cmp (ua ub : Z) :
  0 <= ua < 1000000 -> 0 <= ub < 1000000 ->
  str_cmp ((if ua =? 0 then [] else py "." ++ pad6 ua) ++ py "+00:00")
          ((if ub =? 0 then [] else py "." ++ pad6 ub) ++ py "+00:00")
  = (ua ?= ub).
Proof.
  intros Ha Hb.
  change (py ".") with [46%N]. change (py "+00:00") with [43; 48; 48; 58; 48; 48]%N.
  destruct (Z.eqb_spec ua 0) as [->|Hna], (Z.eqb_spec ub 0) as [->|Hnb].
  - apply str_cmp_refl.
  - symmetry. apply Z.compare_lt_iff. lia.
  - symmetry. apply Z.compare_gt_iff. lia.
  - rewrite !pad6_digits, <- !app_assoc. cbn [app]. rewrite str_cmp_cons.
    rewrite str_cmp_app by (by rewrite !digits_length).
    rewrite digits_cmp by (change (10 ^ Z.of_nat 6) with 1000000; lia).
    destruct (ua ?= ub); [apply str_cmp_refl|done|done].
Qed.

Lemma lex_date (y1 m1 d1 y2 m2 d2 : Z) (rest : comparison) :
  1 <= m1 <= 12 -> 1 <= d1 <= 31 -> 1 <= m2 <= 12 -> 1 <= d2 <= 31 ->
  lex (y1 ?= y2) (lex (m1 ?= m2) (lex (d1 ?= d2) rest))
  = lex ((y1 * 100 + m1) * 100 + d1 ?= (y2 * 100 + m2) * 100 + d2) rest.
Proof.
  intros. unfold lex.
  destruct (Z.compare_spec y1 y2), (Z.compare_spec m1 m2), (Z.compare_spec d1 d2),
    (Z.compare_spec ((y1 * 100 + m1) * 100 + d1) ((y2 * 100 + m2) * 100 + d2));
    try done; exfalso; lia.
Qed.

Lemma lex_time (h1 m1 s1 u1 h2 m2 s2 u2 : Z) :
  0 <= m1 < 60 -> 0 <= s1 < 60 -> 0 <= u1 < 1000000 ->
  0 <= m2 < 60 -> 0 <= s2 < 60 -> 0 <= u2 < 1000000 ->
  lex (h1 ?= h2) (lex (m1 ?= m2) (lex (s1 ?= s2) (u1 ?= u2)))
  = (((h1 * 60 + m1) * 60 + s1) * 1000000 + u1 ?= ((h2 * 60 + m2) * 60 + s2) * 1000000 + u2).
Proof.
  intros. unfold lex.
  destruct (Z.compare_spec h1 h2), (Z.compare_spec m1 m2), (Z.compare_spec s1 s2),
    (Z.compare_spec u1 u2),
    (Z.compare_spec (((h1 * 60 + m1) * 60 + s1) * 1000000 + u1)
                    (((h2 * 60 + m2) * 60 + s2) * 1000000 + u2));
    try done; exfalso; lia.
Qed.

Lemma lex_wall (o1 t1 o2 t2 : Z) :
  0 <= t1 < 86400000000 -> 0 <= t2 < 86400000000 ->
  lex (o1 ?= o2) (t1 ?= t2) = (86400000000 * o1 + t1 ?= 86400000000 * o2 + t2).
Proof.
  intros. unfold lex.
  destruct (Z.compare_spec o1 o2), (Z.compare_spec t1 t2),
    (Z.compare_spec (86400000000 * o1 + t1) (86400000000 * o2 + t2));
    try done; exfalso; lia.
Qed.

(** ISO dates in UTC compare as the instants they denote. *)
Lemma isoformat_cmp (a b : datetime) :
  valid_utc a -> valid_utc b ->
  str_cmp (isoformat a) (isoformat b) = (wall a ?= wall b).
Proof.
  destruct a as [wa tza], b as [wb tzb]. unfold valid_utc, in_range. simpl.
  intros [-> [Ha0 Ha1]%andb_true_iff] [-> [Hb0 Hb1]%andb_true_iff].
  apply Z.leb_le in Ha0, Ha1, Hb0, Hb1. unfold MAX_WALL, MAX_ORDINAL in *.
  unfold isoformat, format_time. simpl wall. simpl tzinfo.
  change (format_offset utc) with (py "+00:00").
  unfold US_PER_DAY in *.
  change (3652059 * 86400000000 - 1) with 315537897599999999 in Ha1, Hb1.
  pose proof (Z.div_mod wa 86400000000 ltac:(lia)) as Hwa.
  pose proof (Z.div_mod wb 86400000000 ltac:(lia)) as Hwb.
  pose proof (Z.mod_pos_bound wa 86400000000 ltac:(lia)) as Hta.
  pose proof (Z.mod_pos_bound wb 86400000000 ltac:(lia)) as Htb.
  set (oa := wa / 86400000000) in *. set (ob := wb / 86400000000) in *.
  set (ta := wa mod 86400000000) in *. set (tb := wb mod 86400000000) in *.
  clearbody oa ob ta tb.
  assert (Hoa : 1 <= oa + 1 <= 3652059) by lia.
  assert (Hob : 1 <= ob + 1 <= 3652059) by lia.
  pose proof (ord2ymd_year (oa + 1) Hoa) as Hya.
  pose proof (ord2ymd_year (ob + 1) Hob) as Hyb.
  pose proof (date_key_compare (oa + 1) (ob + 1) ltac:(lia) ltac:(lia)) as Hkey.
  unfold date_key in Hkey.
  destruct (ord2ymd (oa + 1)) as [[y1 m1] d1], (ord2ymd (ob + 1)) as [[y2 m2] d2].
  rewrite !pad4_digits, !pad2_digits, <- !app_assoc.
  change (py "-") with [45%N]. change (py "T") with [84%N]. change (py ":") with [58%N].
  pose proof (Z.div_mod ta 1000000 ltac:(lia)) as Hsa.
  pose proof (Z.div_mod tb 1000000 ltac:(lia)) as Hsb.
  pose proof (Z.mod_pos_bound ta 1000000 ltac:(lia)) as Hua.
  pose proof (Z.mod_pos_bound tb 1000000 ltac:(lia)) as Hub.
  set (sa := ta / 1000000) in *. set (sb := tb / 1000000) in *.
  set (ua := ta mod 1000000) in *. set (ub := tb mod 1000000) in *.
  clearbody sa sb ua ub.
  assert (Hsa' : 0 <= sa < 86400) by lia.
  assert (Hsb' : 0 <= sb < 86400) by lia.
  pose proof (Z.div_mod sa 60 ltac:(lia)) as Hma.
  pose proof (Z.div_mod sb 60 ltac:(lia)) as Hmb.
  pose proof (Z.mod_pos_bound sa 60 ltac:(lia)) as Hsca.
  pose proof (Z.mod_pos_bound sb 60 ltac:(lia)) as Hscb.
  assert (Hha : sa / 3600 = sa / 60 / 60) by (by rewrite Z.div_div by lia).
  assert (Hhb : sb / 3600 = sb / 60 / 60) by (by rewrite Z.div_div by lia).
  rewrite Hha, Hhb.
  pose proof (Z.div_mod (sa / 60) 60 ltac:(lia)) as Hqa.
  pose proof (Z.div_mod (sb / 60) 60 ltac:(lia)) as Hqb.
  pose proof (Z.mod_pos_bound (sa / 60) 60 ltac:(lia)) as Hmia.
  pose proof (Z.mod_pos_bound (sb / 60) 60 ltac:(lia)) as Hmib.
  clear Hha Hhb.
  set (qa := sa / 60) in *. set (qb := sb / 60) in *.
  set (ha := qa / 60) in *. set (hb := qb / 60) in *.
  set (mia := qa mod 60) in *. set (mib := qb mod 60) in *.
  set (sca := sa mod 60) in *. set (scb := sb mod 60) in *.
  clearbody ha hb mia mib sca scb qa qb.
  assert (Hra : 0 <= ha < 24) by lia.
  assert (Hrb : 0 <= hb < 24) by lia.
  repeat match goal with
         | |- context [pad2 ?x] => change (pad2 x) with (digits 2 x)
         end.
  repeat first
    [ rewrite str_cmp_cons
    | rewrite iso_tail_cmp by lia
    | rewrite (str_cmp_app (digits _ _) (digits _ _)) by (by rewrite !digits_length)
    | rewrite (digits_cmp 4) by (change (10 ^ Z.of_nat 4) with 10000; lia)
    | rewrite (digits_cmp 2) by (change (10 ^ Z.of_nat 2) with 100; lia)
    | progress cbn [app] ].
  change (lex (y1 ?= y2) (lex (m1 ?= m2) (lex (d1 ?= d2)
            (lex (ha ?= hb) (lex (mia ?= mib) (lex (sca ?= scb) (ua ?= ub))))))
          = (wa ?= wb)).
  rewrite lex_date, Hkey, lex_time by lia.
  replace (((ha * 60 + mia) * 60 + sca) * 1000000 + ua) with ta by lia.
  replace (((hb * 60 + mib) * 60 + scb) * 1000000 + ub) with tb by lia.
  assert (Hshift : (oa + 1 ?= ob + 1) = (oa ?= ob)).
  { rewrite (Z.add_comm oa 1), (Z.add_comm ob 1). apply Z.add_compare_mono_l. }
  rewrite Hshift, (lex_wall oa ta ob tb Hta Htb).
  by rewrite <- Hwa, <- Hwb.
Qed.

End IsoOrder.

(** ** The order of the result in time *)

Section Chronology.
Context {E : Externals}.

Lemma str_ltb_isoformat (a b : datetime) :
  valid_utc a -> valid_utc b ->
  str_ltb (isoformat a) (isoformat b) = (instant a <? instant b).
Proof.
  intros Ha Hb. rewrite str_ltb_cmp, (isoformat_cmp a b Ha Hb).
  destruct Ha as [Ha _], Hb as [Hb _]. unfold instant. rewrite Ha, Hb. simpl.
  rewrite !Z.sub_0_r. unfold Z.ltb. by destruct (wall a ?= wall b).
Qed.

Lemma parse_datetime_valid (dt_str : str) (d : datetime) :
  (forall s dt, dtparser_parse s = Ok dt -> in_range (wall dt) = true) ->
  parse_datetime dt_str = Ok (Some d) -> valid_utc d.
Proof.
  intros Hparser. unfold parse_datetime.
  destruct (is_empty dt_str); [discriminate|].
  destruct (dtparser_parse dt_str) as [dt|e] eqn:Hp; simpl; [|discriminate].
  destruct (tzinfo dt) as [off|]; simpl.
  - unfold astimezone_utc. destruct (in_range _) eqn:Hr; simpl; [|discriminate].
    intros [= <-]. by split.
  - intros [= <-]. split; [done|]. simpl. by eapply Hparser.
Qed.

Lemma built_from_stamped feeds cutoff use_g4f (news : list DigestItem) :
  (forall s dt, dtparser_parse s = Ok dt -> in_range (wall dt) = true) ->
  Forall (built_from feeds cutoff use_g4f) news ->
  exists ds, Forall2 stamped news ds.
Proof.
  intros Hparser. induction 1 as [|n news Hn _ [ds IH]]; [by exists []|].
  destruct Hn as (fs & url & w0 & entries & w1 & entry & desc & dt
                  & _ & _ & _ & _ & _ & _ & _ & Hdt & _ & Hdate & _).
  exists (dt :: ds). constructor; [|done]. split; [done|].
  destruct dt as [d|]; [|done]. by eapply parse_datetime_valid.
Qed.

Lemma sorted_newest_first (news : list DigestItem) (ds : list (option datetime)) :
  StronglySorted (key_ge date) news -> Forall2 stamped news ds -> newest_first ds.
Proof.
  intros Hsorted Hst l1 a l2 b l3 ->.
  apply Forall2_app_inv_r in Hst as (n1 & r1 & _ & Hst & ->).
  apply Forall2_cons_inv_r in Hst as (x & r2 & [Hx Hxa] & Hst & ->).
  apply Forall2_app_inv_r in Hst as (n2 & r3 & _ & Hst & ->).
  apply Forall2_cons_inv_r in Hst as (y & n3 & [Hy Hyb] & _ & ->).
  apply sorted_never_inverted in Hsorted. rewrite Hx, Hy in Hsorted.
  destruct a as [da|]; [|done]. destruct b as [db|]; simpl in Hsorted.
  - rewrite str_ltb_isoformat in Hsorted by done. by apply Z.ltb_ge in Hsorted.
  - by rewrite isoformat_below_unknown in Hsorted.
Qed.

(** X9.  When the date parser only returns dates [datetime] can represent,
    what [fetch_news] returns is in this order: the items whose date is
    ["unknown"] first, then the dated items from the newest to the oldest,
    each date being the ISO form of a UTC date. *)
Theorem dated_items_newest_first (days limit : Z) (use_g4f : bool) (w : World)
    (news : list DigestItem) (w' : World) :
  (forall s dt, dtparser_parse s = Ok dt -> in_range (wall dt) = true) ->
  fetch_news days limit use_g4f w = (Ok news, w') ->
  exists ds, Forall2 stamped news ds /\ newest_first ds.
Proof.
  intros Hparser Hf.
  destruct (fetch_news_built_from _ _ _ _ _ _ Hf) as (cutoff & _ & Hall).
  apply fetch_news_ok in Hf as (cutoff' & all_news & _ & _ & ->).
  destruct (built_from_stamped _ _ _ _ Hparser Hall) as [ds Hds].
  exists ds. split; [done|].
  eapply sorted_newest_first; [apply dedup_sort_limit_sorted|done].
Qed.

End Chronology.

(** ** What a run without g4f does to the world *)

Section Reads.
Context {E : Externals}.







End Reads.

(** ** The console and the digest file *)

Section Console.
Context {E : Externals} {M : Host}.

Lemma enumerate_lines_length (i : Z) (news : list DigestItem) :
  length (enumerate_lines i news) = (7 * length news)%nat.
Proof.
  revert i. induction news as [|n news IH]; intros i; [done|].
  cbn [enumerate_lines]. rewrite length_app, IH. simpl. lia.
Qed.

Lemma enumerate_lines_app (i : Z) (a b : list DigestItem) :
  enumerate_lines i (a ++ b)
  = enumerate_lines i a ++ enumerate_lines (i + Z.of_nat (length a)) b.
Proof.
  revert i. induction a as [|n a IH]; intros i.
  - simpl. by rewrite Z.add_0_r.
  - cbn [enumerate_lines app length]. rewrite IH, <- app_assoc.
    do 3 f_equal. lia.
Qed.

Lemma prints_tret : prints (tret tt) [].
Proof. intros w r w' t [= <- _ <-]. by split. Qed.

Lemma prints_say (s : str) : prints (say s) [s].
Proof.
  intros w r w' t. unfold say.
  destruct (stdout_print s w) as [[u|e] w1]; intros [= <- _ <-].
  - by split.
  - split; [by apply prefix_nil|done].
Qed.

Lemma prints_tbind (m : MT unit) (k : unit -> MT unit) (l1 l2 : list str) :
  prints m l1 -> (forall u, prints (k u) l2) -> prints (tbind m k) (l1 ++ l2).
Proof.
  intros Hm Hk w r w' t. unfold tbind.
  destruct (m w) as [[[u|e] w1] t1] eqn:Hmw.
  - destruct (Hm _ _ _ _ Hmw) as [_ Ht1]. rewrite (Ht1 ltac:(by destruct u)).
    destruct (k u w1) as [[r2 w2] t2] eqn:Hkw.
    destruct (Hk u _ _ _ _ Hkw) as [Hpre Hall].
    intros [= <- _ <-]. change (List.map Print (l1 ++ l2)) with (Print <$> (l1 ++ l2)).
    rewrite fmap_app. split.
    + by apply prefix_app.
    + intros Hr. by rewrite (Hall Hr).
  - destruct (Hm _ _ _ _ Hmw) as [Hpre _].
    intros [= <- _ <-]. split; [|done].
    change (List.map Print (l1 ++ l2)) with (Print <$> (l1 ++ l2)).
    rewrite fmap_app. by apply prefix_app_r.
Qed.

Lemma prints_say_all (lines : list str) : prints (say_all lines) lines.
Proof.
  induction lines as [|s lines IH]; [apply prints_tret|].
  apply (prints_tbind _ _ [s]); [apply prints_say|done].
Qed.

Lemma prints_print_items (i : Z) (news : list DigestItem) :
  prints (print_items i news) (enumerate_lines i news).
Proof.
  revert i. induction news as [|n news IH]; intros i; [apply prints_tret|].
  apply prints_tbind; [apply prints_say_all|done].
Qed.

Lemma prints_print_news (news : list DigestItem) :
  prints (print_news news) (print_news_lines news).
Proof.
  apply prints_tbind; [apply prints_say_all|]. intros _.
  apply prints_tbind; [apply prints_print_items|]. intros _. apply prints_say_all.
Qed.

(** X11.  [print_news] makes five [print] calls around the items and seven
    for each item, and the seven of the item at index [k] show it under the
    number [k + 1]; what a run of it has printed is a beginning of these
    calls, and all of them when it returns. *)
Theorem print_news_numbers_items (news : list DigestItem) (k : nat) (n : DigestItem)
    (w : World) :
  news !! k = Some n ->
  length (print_news_lines news) = (5 + 7 * length news)%nat
  /\ take 7 (drop (3 + 7 * k) (print_news_lines news)) = item_lines (Z.of_nat k + 1) n
  /\ (print_news news w).2 `prefix_of` List.map Print (print_news_lines news)
  /\ ((print_news news w).1.1 = Ok tt ->
      (print_news news w).2 = List.map Print (print_news_lines news)).
Proof.
  intros Hk. split; [|split].
  - unfold print_news_lines. rewrite !length_app, enumerate_lines_length. simpl. lia.
  - pose proof (lookup_lt_Some _ _ _ Hk) as Hlt.
    rewrite <- (take_drop_middle news k n Hk). unfold print_news_lines.
    rewrite enumerate_lines_app. cbn [enumerate_lines].
    rewrite length_take, Nat.min_l by lia.
    pose proof (enumerate_lines_length 1 (take k news)) as Hlen.
    rewrite length_take, Nat.min_l in Hlen by lia.
    set (a := enumerate_lines 1 (take k news)) in *.
    rewrite <- !app_assoc, (app_assoc header_lines a).
    replace (3 + 7 * k)%nat with (length (header_lines ++ a))
      by (by rewrite length_app, Hlen).
    rewrite drop_app_length, (Z.add_comm 1).
    by rewrite (take_app_length' (item_lines _ n)).
  - destruct (print_news news w) as [[r w'] t] eqn:Hrun.
    destruct (prints_print_news news _ _ _ _ Hrun) as [Hpre Hall]. by split.
Qed.

End Console.

(** ** The main block *)

Section Run.
Context {E : Externals} {M : Host}.

Lemma no_write_in_prints (lines : list str) (t : list Event) (p c : str) :
  t `prefix_of` List.map Print lines -> WriteFile p c ∉ t.
Proof.
  intros [rest Hpre] Hin.
  assert (Hin' : WriteFile p c ∈ Print <$> lines).
  { change (Print <$> lines) with (List.map Print lines).
    rewrite Hpre. apply elem_of_app. by left. }
  by apply list_elem_of_fmap in Hin' as (s & ? & _).
Qed.

(** The main block, call by call. *)
Lemma main_unfold (days limit : Z) (use_g4f : bool) (w : World) :
  main days limit use_g4f w
  = match stdout_print banner w with
    | (Raise e, w1) => (Raise e, w1, [])
    | (Ok _, w1) =>
        match fetch_news days limit use_g4f w1 with
        | (Raise e, w2) => (Raise e, w2, [Print banner])
        | (Ok [], w2) =>
            let '(r, w3, t) := say advice w2 in (r, w3, Print banner :: t)
        | (Ok (n :: rest), w2) =>
            let '(r, w3, t) :=
              tbind (print_news (n :: rest)) (fun _ => save_to_md (n :: rest)) w2 in
            (r, w3, Print banner :: t)
        end
    end.
Proof.
  unfold main, tbind at 1 2, say at 1, quiet.
  destruct (stdout_print banner w) as [[u|e] w1]; [|done].
  destruct (fetch_news days limit use_g4f w1) as [[[|n news]|e] w2]; [| |done].
  - by destruct (say advice w2) as [[r w3] t].
  - by destruct (tbind _ _ w2) as [[r w3] t].
Qed.

(** X12.  When the first line is out and [days] days before now is no date
    Python can express, the run ends with [OverflowError]: no feed is read,
    nothing else is printed and no file is written. *)
Theorem main_stops_on_bad_window (days limit : Z) (use_g4f : bool) (w w1 : World) :
  stdout_print banner w = (Ok tt, w1) ->
  ~ window_ok w1 days ->
  main days limit use_g4f w = (Raise OverflowError, w1, [Print banner]).
Proof.
  intros Hsay Hw. destruct (cutoff_of_window w1 days) as [_ Hbad].
  unfold main, tbind, say, quiet. rewrite Hsay.
  by rewrite (fetch_news_raises days limit use_g4f w1 _ (Hbad Hw)).
Qed.

(** X13.  With [--limit 0] a run prints no news and writes no file,
    whatever the feeds hold: its events are the first line and the advice to
    widen the period, or a beginning of these; both, when the calls
    return. *)
Theorem zero_limit_reports_failure (days : Z) (use_g4f : bool) (w : World) :
  (main days 0 use_g4f w).2 `prefix_of` [Print banner; Print advice]
  /\ forall w1 news w2 w3,
       stdout_print banner w = (Ok tt, w1) ->
       fetch_news days 0 use_g4f w1 = (Ok news, w2) ->
       stdout_print advice w2 = (Ok tt, w3) ->
       main days 0 use_g4f w = (Ok tt, w3, [Print banner; Print advice]).
Proof.
  assert (Hzero : forall w1 news w2, fetch_news days 0 use_g4f w1 = (Ok news, w2) -> news = []).
  { intros w1 news w2 (cutoff & all_news & _ & _ & ->)%fetch_news_ok.
    unfold dedup_sort_limit, slice_to. simpl. by rewrite take_0. }
  unfold main, tbind, say, quiet. split.
  - destruct (stdout_print banner w) as [[u|e] w1]; [|by apply prefix_nil].
    destruct (fetch_news days 0 use_g4f w1) as [[news|e] w2] eqn:Hf;
      [|by exists [Print advice]].
    rewrite (Hzero _ _ _ Hf).
    destruct (stdout_print advice w2) as [[u'|e] w3]; [done|by exists [Print advice]].
  - intros w1 news w2 w3 -> Hf. rewrite Hf, (Hzero _ _ _ Hf). by intros ->.
Qed.

(** X14.  A run writes a file only in one way: its first line was printed,
    [fetch_news] returned items, all of them were printed, and then the
    digest of these same items went to the digest path; after that comes
    the confirmation, if it can be printed, and nothing else.  So at most
    one file is written, and none before the news are out. *)
Theorem file_written_only_after_the_news (days limit : Z) (use_g4f : bool) (w : World)
    (p c : str) :
  WriteFile p c ∈ (main days limit use_g4f w).2 ->
  exists w1 news w2 w3 w4 rest,
    stdout_print banner w = (Ok tt, w1)
    /\ fetch_news days limit use_g4f w1 = (Ok news, w2)
    /\ news <> []
    /\ print_news news w2 = (Ok tt, w3, List.map Print (print_news_lines news))
    /\ digest_path w3 = Ok p
    /\ c = digest_md (local_stamp w3) news
    /\ write_text p c w3 = (Ok tt, w4)
    /\ (main days limit use_g4f w).2
       = Print banner :: List.map Print (print_news_lines news) ++ WriteFile p c :: rest
    /\ rest `prefix_of` [Print (saved_line p)].
Proof.
  destruct (main days limit use_g4f w) as [[r wf] t] eqn:Hrun. cbn [snd].
  rewrite main_unfold in Hrun.
  destruct (stdout_print banner w) as [[[]|e] w1];
    [|injection Hrun as _ _ <-; by intros ?%elem_of_nil].
  destruct (fetch_news days limit use_g4f w1) as [[[|n news]|e] w2] eqn:Hf.
  - destruct (say advice w2) as [[r' w3] t'] eqn:Hsay. injection Hrun as _ _ <-.
    intros [?|Hin]%elem_of_cons; [done|].
    by apply (no_write_in_prints [advice] t' p c) in Hin; [|eapply prints_say].
  - unfold tbind in Hrun.
    destruct (print_news (n :: news) w2) as [[[[]|e] w3] t1] eqn:Hprint.
    + destruct (prints_print_news _ _ _ _ _ Hprint) as [_ Hall].
      rewrite (Hall eq_refl) in *. clear Hall.
      remember (print_news_lines (n :: news)) as lines eqn:Hlines.
      unfold save_to_md in Hrun.
      destruct (digest_path w3) as [path|e] eqn:Hpath.
      * destruct (write_text path _ w3) as [[[]|e] w4] eqn:Hwrite.
        -- destruct (say (saved_line path) w4) as [[r' w5] t2] eqn:Hsay.
           injection Hrun as _ _ <-.
           destruct (prints_say _ _ _ _ _ Hsay) as [Hpre _].
           intros [?|[Hin|[Hin|Hin]%elem_of_cons]%elem_of_app]%elem_of_cons; [done|..].
           ++ by apply (no_write_in_prints lines _ p c) in Hin.
           ++ injection Hin as -> ->. subst lines.
              exists w1, (n :: news), w2, w3, w4, t2. by repeat split.
           ++ by apply (no_write_in_prints _ _ p c) in Hpre.
        -- injection Hrun as _ _ <-. rewrite app_nil_r.
           intros [?|Hin]%elem_of_cons; [done|].
           by apply (no_write_in_prints lines _ p c) in Hin.
      * injection Hrun as _ _ <-. rewrite app_nil_r.
        intros [?|Hin]%elem_of_cons; [done|].
        by apply (no_write_in_prints lines _ p c) in Hin.
    + destruct (prints_print_news _ _ _ _ _ Hprint) as [Hpre _].
      injection Hrun as _ _ <-.
      intros [?|Hin]%elem_of_cons; [done|].
      by apply (no_write_in_prints _ _ p c) in Hpre.
  - injection Hrun as _ _ <-. intros [?|Hin%elem_of_nil]%elem_of_cons; done.
Qed.

End Run.

(** ** The further properties on the example world *)

Section Runs.

#[local] Existing Instance example_world.
#[local] Existing Instance example_host.

(** The model of [str], [center] and [save_to_md]'s text on known values. *)
Example rendering_examples :
  str_of_int 0 = py "0"
  /\ str_of_int 7 = py "7"
  /\ str_of_int 10 = py "10"
  /\ str_of_int 1234567890 = py "1234567890"
  /\ str_of_int (-42) = py "-42"
  /\ center (py "ab") 5 61%N = py "==ab="
  /\ center (py "abc") 6 61%N = py "=abc=="
  /\ center (py "abc") 2 61%N = py "abc"
  /\ center (py " ЕЖЕНЕДЕЛЬНАЯ ПОДБОРКА НОВОСТЕЙ ") 90 61%N
     = str_mul (py "=") 29 ++ py " ЕЖЕНЕДЕЛЬНАЯ ПОДБОРКА НОВОСТЕЙ " ++ str_mul (py "=") 29
  /\ Fore_CYAN = [27; 91; 51; 54; 109]%N
  /\ digest_md (py "05.01.2024 12:00")
       [mk_item (py "T") (py "S") (py "D") (py "Src") (py "L") (py "C")]
     = py "# Еженедельная подборка новостей (05.01.2024 12:00)" ++ NL ++ NL
       ++ py "### T" ++ NL ++ NL
       ++ py "S" ++ NL ++ NL
       ++ py "_D • Src_  " ++ NL ++ py "[L](L)" ++ NL.
Proof. vm_compute. repeat split. Qed.

(** The main block in the example world: a run that prints and saves, a
    run with [--limit 0], and the latter on a terminal that cannot print
    the advice. *)
Example main_examples :
  main (E := example_world) (M := example_host) 7 7 false 0%nat
  = (Ok tt, 11%nat,
     Print banner :: List.map Print (print_news_lines example_news)
       ++ [ WriteFile (py "/home/user/digest.md") example_digest;
            Print (saved_line (py "/home/user/digest.md")) ])
  /\ main (E := example_world) (M := example_host) 7 0 false 0%nat
     = (Ok tt, 10%nat, [Print banner; Print advice])
  /\ main (E := example_world) (M := mute_host) 7 0 false 0%nat
     = (Raise UnicodeEncodeError, 10%nat, [Print banner]).
Proof. vm_compute. repeat split. Qed.

Lemma items_are_well_formed_witness :
  Forall (fun n =>
    title n <> []
    /\ (forall c, head (title n) = Some c -> isspace c = false)
    /\ (forall c, last (title n) = Some c -> isspace c = false)
    /\ (forall c, c ∈ title n -> isspace c = true -> c = 32%N)
    /\ single_spaced (title n) = true
    /\ exists fs url, (category n, fs) ∈ FEEDS /\ (source n, url) ∈ fs) example_news.
Proof.
  eapply (items_are_well_formed (E := example_world) 7 7 false 0%nat).
  vm_compute. reflexivity.
Defined.


Lemma limit_beyond_the_length_witness :
  exists cutoff all_news,
    cutoff_of (E := example_world) 0%nat 7 = Ok cutoff
    /\ collect (E := example_world) FEEDS cutoff false 0%nat = (Ok all_news, 10%nat)
    /\ let sorted := sort_reverse date (dedup (E := example_world) all_news ∅ []) in
       (exists rest, sorted = example_news ++ rest)
       /\ (Z.of_nat (length sorted) <= 7 -> example_news = sorted)
       /\ (7 <= - Z.of_nat (length sorted) -> example_news = []).
Proof.
  apply (limit_beyond_the_length (E := example_world) 7 7 false 0%nat).
  vm_compute. reflexivity.
Defined.

Lemma one_short_sentence_is_kept_witness :
  summarize_naive (py "Prices rose by 3.5 percent") 2 300 = py "Prices rose by 3.5 percent".
Proof.
  apply (one_short_sentence_is_kept (py "Prices rose by 3.5 percent") 2 300).
  - vm_compute. reflexivity.
  - lia.
  - vm_compute. discriminate.
Defined.

Lemma naive_summaries_are_one_line_witness :
  Forall (fun n =>
    (length (summary n) <= 302)%nat
    /\ forall c, c ∈ summary n -> isspace c = true -> c = 32%N) example_news.
Proof.
  eapply (naive_summaries_are_one_line (E := example_world) 7 7 0%nat).
  vm_compute. reflexivity.
Defined.

Lemma assoc_Forall {V : Type} (P : V -> Prop) (l : list (str * V)) (k : str) (v : V) :
  Forall (fun kv => P (snd kv)) l -> assoc k l = Some v -> P v.
Proof.
  induction 1 as [|[k' v'] l Hkv _ IH]; simpl; [discriminate|].
  destruct (decide (k = k')); [by intros [= <-]|done].
Qed.

(** The date parser of the example world returns dates [datetime] can
    represent. *)
Lemma example_parser_in_range (s : str) (dt : datetime) :
  dtparser_parse (Externals := example_world) s = Ok dt -> in_range (wall dt) = true.
Proof.
  cbn [dtparser_parse example_world].
  destruct (assoc s example_dates) as [d|] eqn:Ha; [|discriminate].
  intros [= <-]. revert Ha. apply (assoc_Forall (fun d => in_range (wall d) = true)).
  repeat constructor.
Qed.

Lemma dated_items_newest_first_witness :
  exists ds, Forall2 stamped example_news ds /\ newest_first ds.
Proof.
  eapply (dated_items_newest_first (E := example_world) 7 7 false 0%nat).
  - apply example_parser_in_range.
  - vm_compute. reflexivity.
Defined.


Lemma print_news_numbers_items_witness :
  length (print_news_lines example_news) = (5 + 7 * length example_news)%nat
  /\ take 7 (drop (3 + 7 * 1) (print_news_lines example_news))
     = item_lines (Z.of_nat 1 + 1)
         (mk_item (py "Dated story") (py "Sentence one. Sentence two.")
                  (py "2024-01-01T00:00:00+00:00") (py "Marketing Dive")
                  (py "https://example.org/dated") (py "Маркетинг"))
  /\ (print_news (E := example_world) (M := example_host) example_news 0%nat).2
     `prefix_of` List.map Print (print_news_lines example_news)
  /\ ((print_news (E := example_world) (M := example_host) example_news 0%nat).1.1 = Ok tt ->
      (print_news (E := example_world) (M := example_host) example_news 0%nat).2
      = List.map Print (print_news_lines example_news)).
Proof.
  apply (print_news_numbers_items (E := example_world) (M := example_host) example_news 1).
  vm_compute. reflexivity.
Defined.

Lemma main_stops_on_bad_window_witness :
  main (E := example_world) (M := example_host) 800000 7 false 0%nat
  = (Raise OverflowError, 0%nat, [Print banner]).
Proof.
  apply (main_stops_on_bad_window (E := example_world) (M := example_host)
           800000 7 false 0%nat 0%nat).
  - reflexivity.
  - unfold window_ok. intros [_ [Hlo _]]. vm_compute in Hlo. by apply Hlo.
Defined.

Lemma file_written_only_after_the_news_witness :
  exists w1 news w2 w3 w4 rest,
    stdout_print (Host := example_host) banner 0%nat = (Ok tt, w1)
    /\ fetch_news (E := example_world) 7 7 false w1 = (Ok news, w2)
    /\ news <> []
    /\ print_news (E := example_world) (M := example_host) news w2
       = (Ok tt, w3, List.map Print (print_news_lines news))
    /\ digest_path (Host := example_host) w3 = Ok (py "/home/user/digest.md")
    /\ example_digest = digest_md (local_stamp (Host := example_host) w3) news
    /\ write_text (Host := example_host) (py "/home/user/digest.md") example_digest w3
       = (Ok tt, w4)
    /\ (main (E := example_world) (M := example_host) 7 7 false 0%nat).2
       = Print banner :: List.map Print (print_news_lines news)
           ++ WriteFile (py "/home/user/digest.md") example_digest :: rest
    /\ rest `prefix_of` [Print (saved_line (py "/home/user/digest.md"))].
Proof.
  apply (file_written_only_after_the_news (E := example_world) (M := example_host)
           7 7 false 0%nat).
  apply (list_elem_of_lookup_2 _ 20). vm_compute. reflexivity.
Defined.

End Runs.
